(** * Conference backend: identity resolution and the registration store

    A shallow embedding of the Go handlers and middleware of the
    conference API (packages [models], [firebase], [middleware] and
    [handlers]) together with the properties of its specification.

    The two external collaborators are modelled as part of an explicit
    world that every handler threads through:
    - the identity provider (Firebase Auth): a table of valid credentials
      and a directory of user records;
    - the document store (Firestore): named collections of documents, a
      document being a finite map from field names to values.
    Every call that leaves the process is appended to a trace and may be
    made to fail by a fault script, so that statements such as "no store
    call is made" or "the read fails" can be expressed and proved. *)

From Stdlib Require Import ZArith String Ascii List Bool Lia.
From stdpp Require Import base option list strings gmap fin_maps.

Local Open Scope string_scope.
Local Open Scope Z_scope.

(** ** Package [models] *)

(** [time.Time], at the resolution the store keeps; the zero value is [0]. *)
Abbreviation Time := Z (only parsing).

Module User.
Record t := mk {
  UID : string;
  Email : string;
  DisplayName : string;
  PhotoURL : string;
  Provider : string;
  EmailVerified : bool;
  CreatedAt : Time;
  UpdatedAt : Time;
  LastLoginAt : Time }.
End User.

Module Registration.
Record t := mk {
  ID : string;
  UserID : string;
  FirstName : string;
  LastName : string;
  Email : string;
  Phone : string;
  Organization : string;
  JobTitle : string;
  Country : string;
  City : string;
  DietaryReqs : string;
  SpecialNeeds : string;
  TicketType : string;
  SessionsOfInt : list string;
  PaymentStatus : string;
  RegistrationDate : Time;
  CreatedAt : Time;
  UpdatedAt : Time }.

(** [registration.ID = docRef.ID] *)
Definition with_ID (id : string) (r : t) : t :=
  mk id (UserID r) (FirstName r) (LastName r) (Email r) (Phone r)
     (Organization r) (JobTitle r) (Country r) (City r) (DietaryReqs r)
     (SpecialNeeds r) (TicketType r) (SessionsOfInt r) (PaymentStatus r)
     (RegistrationDate r) (CreatedAt r) (UpdatedAt r).
End Registration.

Module RegistrationInput.
Record t := mk {
  FirstName : string;
  LastName : string;
  Email : string;
  Phone : string;
  Organization : string;
  JobTitle : string;
  Country : string;
  City : string;
  DietaryReqs : string;
  SpecialNeeds : string;
  TicketType : string;
  SessionsOfInt : list string }.
End RegistrationInput.

(** ** Documents of the store *)

(** The values a document field may hold. *)
#[warnings="-register-all"]
Inductive Value :=
| VNull
| VBool (b : bool)
| VInt (n : Z)
| VString (s : string)
| VTime (t : Time)
| VArray (l : list Value).

(** A document: field name to value. *)
Abbreviation Doc := (gmap string Value).

(** A collection: documents by document id, in the order in which the
    store lists them (ascending document id). *)
Abbreviation Collection := (list (string * Doc)).

(** *** Struct to document (the [firestore:"..."] tags) *)

(** A nil slice is stored as null. *)
Definition enc_strings (l : list string) : Value :=
  match l with
  | [] => VNull
  | _ => VArray (VString <$> l)
  end.

Definition User_fields (u : User.t) : Doc :=
  list_to_map
    [ ("uid", VString (User.UID u));
      ("email", VString (User.Email u));
      ("displayName", VString (User.DisplayName u));
      ("photoUrl", VString (User.PhotoURL u));
      ("provider", VString (User.Provider u));
      ("emailVerified", VBool (User.EmailVerified u));
      ("createdAt", VTime (User.CreatedAt u));
      ("updatedAt", VTime (User.UpdatedAt u));
      ("lastLoginAt", VTime (User.LastLoginAt u)) ].

(** [ID] is tagged [firestore:"-"] and is not stored. *)
Definition Registration_fields (r : Registration.t) : Doc :=
  list_to_map
    [ ("userId", VString (Registration.UserID r));
      ("firstName", VString (Registration.FirstName r));
      ("lastName", VString (Registration.LastName r));
      ("email", VString (Registration.Email r));
      ("phone", VString (Registration.Phone r));
      ("organization", VString (Registration.Organization r));
      ("jobTitle", VString (Registration.JobTitle r));
      ("country", VString (Registration.Country r));
      ("city", VString (Registration.City r));
      ("dietaryRequirements", VString (Registration.DietaryReqs r));
      ("specialNeeds", VString (Registration.SpecialNeeds r));
      ("ticketType", VString (Registration.TicketType r));
      ("sessionsOfInterest", enc_strings (Registration.SessionsOfInt r));
      ("paymentStatus", VString (Registration.PaymentStatus r));
      ("registrationDate", VTime (Registration.RegistrationDate r));
      ("createdAt", VTime (Registration.CreatedAt r));
      ("updatedAt", VTime (Registration.UpdatedAt r)) ].

(** *** Document to struct ([DocumentSnapshot.DataTo]) *)

(** A field absent from the document, or null, leaves the zero value; a
    value of another type is a decoding error ([None]); fields of the
    document that the struct does not name are ignored. *)
Definition dec_string (d : Doc) (k : string) : option string :=
  match d !! k with
  | None | Some VNull => Some ""
  | Some (VString s) => Some s
  | Some _ => None
  end.

Definition dec_bool (d : Doc) (k : string) : option bool :=
  match d !! k with
  | None | Some VNull => Some false
  | Some (VBool b) => Some b
  | Some _ => None
  end.

Definition dec_time (d : Doc) (k : string) : option Time :=
  match d !! k with
  | None | Some VNull => Some 0
  | Some (VTime t) => Some t
  | Some _ => None
  end.

Definition as_string (v : Value) : option string :=
  match v with VString s => Some s | _ => None end.

Definition dec_strings (d : Doc) (k : string) : option (list string) :=
  match d !! k with
  | None | Some VNull => Some []
  | Some (VArray l) => mapM as_string l
  | Some _ => None
  end.

Definition DataTo_User (d : Doc) : option User.t :=
  uid ← dec_string d "uid";
  email ← dec_string d "email";
  displayName ← dec_string d "displayName";
  photoUrl ← dec_string d "photoUrl";
  provider ← dec_string d "provider";
  emailVerified ← dec_bool d "emailVerified";
  createdAt ← dec_time d "createdAt";
  updatedAt ← dec_time d "updatedAt";
  lastLoginAt ← dec_time d "lastLoginAt";
  Some (User.mk uid email displayName photoUrl provider emailVerified
                createdAt updatedAt lastLoginAt).

Definition DataTo_Registration (d : Doc) : option Registration.t :=
  userId ← dec_string d "userId";
  firstName ← dec_string d "firstName";
  lastName ← dec_string d "lastName";
  email ← dec_string d "email";
  phone ← dec_string d "phone";
  organization ← dec_string d "organization";
  jobTitle ← dec_string d "jobTitle";
  country ← dec_string d "country";
  city ← dec_string d "city";
  dietaryRequirements ← dec_string d "dietaryRequirements";
  specialNeeds ← dec_string d "specialNeeds";
  ticketType ← dec_string d "ticketType";
  sessionsOfInterest ← dec_strings d "sessionsOfInterest";
  paymentStatus ← dec_string d "paymentStatus";
  registrationDate ← dec_time d "registrationDate";
  createdAt ← dec_time d "createdAt";
  updatedAt ← dec_time d "updatedAt";
  Some (Registration.mk "" userId firstName lastName email phone organization
          jobTitle country city dietaryRequirements specialNeeds ticketType
          sessionsOfInterest paymentStatus registrationDate createdAt
          updatedAt).

(** *** Operations on a collection *)

(** [Doc(id).Get]: the data of the document with this id, if any. *)
Fixpoint coll_get (id : string) (c : Collection) : option Doc :=
  match c with
  | [] => None
  | (k, d) :: c' => if String.eqb k id then Some d else coll_get id c'
  end.

(** Write [f old] at [id], where [old] is the present data of the document
    if it exists: in place when it exists, else at its position in the
    order of document ids. *)
Fixpoint coll_put (id : string) (f : option Doc → Doc) (c : Collection)
  : Collection :=
  match c with
  | [] => [(id, f None)]
  | (k, d) :: c' =>
      if String.eqb k id then (k, f (Some d)) :: c'
      else if String.ltb id k then (id, f None) :: (k, d) :: c'
      else (k, d) :: coll_put id f c'
  end.

(** [Doc(id).Set(data)]: the document becomes exactly [data]. *)
Definition coll_set (id : string) (data : Doc) : Collection → Collection :=
  coll_put id (λ _, data).

(** [Doc(id).Set(data, MergeAll)]: the fields of [data] are overwritten,
    every other field of the document is kept. *)
Definition coll_merge (id : string) (data : Doc) : Collection → Collection :=
  coll_put id (λ old, data ∪ default ∅ old).

(** [Doc(id).Delete] *)
Fixpoint coll_delete (id : string) (c : Collection) : Collection :=
  match c with
  | [] => []
  | (k, d) :: c' =>
      if String.eqb k id then coll_delete id c' else (k, d) :: coll_delete id c'
  end.

(** The filter [Where(field, "==", value)] for a string [value]. *)
Definition field_is (field value : string) (d : Doc) : bool :=
  match d !! field with
  | Some (VString s) => String.eqb s value
  | _ => false
  end.

(** [Where(field, "==", value).Limit(1)]: the first matching document. *)
Fixpoint coll_where (field value : string) (c : Collection)
  : option (string * Doc) :=
  match c with
  | [] => None
  | (k, d) :: c' =>
      if field_is field value d then Some (k, d) else coll_where field value c'
  end.

(** The number of documents matching [Where(field, "==", value)]. *)
Fixpoint coll_count (field value : string) (c : Collection) : nat :=
  match c with
  | [] => O
  | (_, d) :: c' =>
      if field_is field value d then S (coll_count field value c')
      else coll_count field value c'
  end.

(** ** [strings.Split] for a one-byte separator *)

Fixpoint strings_Split (s : string) (sep : ascii) : list string :=
  match s with
  | EmptyString => [""]
  | String c s' =>
      if Ascii.eqb c sep then "" :: strings_Split s' sep
      else match strings_Split s' sep with
           | [] => [String c ""]
           | p :: ps => String c p :: ps
           end
  end.

(** ** [net/http] status codes *)

Definition StatusOK : nat := 200.
Definition StatusCreated : nat := 201.
Definition StatusBadRequest : nat := 400.
Definition StatusUnauthorized : nat := 401.
Definition StatusNotFound : nat := 404.
Definition StatusConflict : nat := 409.
Definition StatusInternalServerError : nat := 500.

(** ** The world outside the process *)

(** Go [error] values that occur. *)
Inductive Error :=
| ErrAuthNotInitialized   (* "firebase: auth client is not initialized" *)
| ErrTokenRequired        (* "firebase: id token is required" *)
| ErrUIDRequired          (* "firebase: uid is required" *)
| ErrInvalidToken         (* the provider rejects the credential *)
| ErrUserNotFound         (* the provider has no record of the uid *)
| ErrUnavailable          (* the provider or the store cannot be reached *)
| ErrNotFound             (* the document does not exist *)
| ErrAlreadyExists        (* the document already exists *)
| ErrDone                 (* [iterator.Done] *)
| ErrDataTo               (* [DataTo]: a field has the wrong type *)
| ErrBind (detail : string). (* [ShouldBindJSON] *)

(** [err.Error()] *)
Definition Error_text (e : Error) : string :=
  match e with
  | ErrAuthNotInitialized => "firebase: auth client is not initialized"
  | ErrTokenRequired => "firebase: id token is required"
  | ErrUIDRequired => "firebase: uid is required"
  | ErrInvalidToken => "invalid id token"
  | ErrUserNotFound => "no user record found"
  | ErrUnavailable => "unavailable"
  | ErrNotFound => "not found"
  | ErrAlreadyExists => "already exists"
  | ErrDone => "no more items in iterator"
  | ErrDataTo => "cannot set type"
  | ErrBind detail => detail
  end.

(** The calls that leave the process. *)
Inductive Call :=
| AuthVerifyIDToken (idToken : string)
| AuthGetUser (uid : string)
| DocGet (coll id : string)
| DocSet (coll id : string) (merge : bool)
| DocDelete (coll id : string)
| CollAdd (coll : string)
| QueryDocuments (coll : string) (filter : option (string * string)).

(** What the provider's directory holds for a subject. *)
Record UserInfo := {
  info_Email : string;
  info_DisplayName : string;
  info_PhotoURL : string;
  info_EmailVerified : bool }.

Record World := mkWorld {
  auth_ready : bool;                    (* [c.Auth != nil] *)
  idp_tokens : gmap string string;      (* valid credential to its subject *)
  idp_users : gmap string UserInfo;     (* the provider's user directory *)
  fs : gmap string Collection;          (* the store, by collection name *)
  faults : list bool;                   (* does the next call fail? *)
  clock : Time;                         (* what [time.Now] reads next *)
  id_seed : nat;                        (* source of generated document ids *)
  trace : list Call }.                  (* the calls made so far *)

Definition collection (name : string) (w : World) : Collection :=
  default [] (fs w !! name).

Definition set_collection (name : string) (c : Collection) (w : World) : World :=
  mkWorld (auth_ready w) (idp_tokens w) (idp_users w) (<[name := c]> (fs w))
          (faults w) (clock w) (id_seed w) (trace w).

(** ** Computations over the world *)

Definition M (A : Type) : Type := World → A * World.

Definition ret {A} (a : A) : M A := λ w, (a, w).

Definition bind {A B} (m : M A) (k : A → M B) : M B :=
  λ w, let (a, w') := m w in k a w'.

Declare Scope go_scope.
Delimit Scope go_scope with go.
Notation "x <~ m ;; k" := (bind m (λ x, k))
  (at level 100, m at next level, right associativity) : go_scope.
Notation "m ;;; k" := (bind m (λ _, k))
  (at level 100, right associativity) : go_scope.
Local Open Scope go_scope.

Definition read {A} (f : World → A) : M A := λ w, (f w, w).
Definition update (f : World → World) : M unit := λ w, (tt, f w).

(** A call leaves the process: it is recorded, and the fault script says
    whether it fails (an exhausted script means no failure). *)
Definition call (c : Call) : M bool :=
  λ w, (match faults w with b :: _ => b | [] => false end,
        mkWorld (auth_ready w) (idp_tokens w) (idp_users w) (fs w)
                (tail (faults w)) (clock w) (id_seed w) (trace w ++ [c])).

(** [time.Now()]: reads the clock, which then moves on. *)
Definition time_Now : M Time :=
  λ w, (clock w,
        mkWorld (auth_ready w) (idp_tokens w) (idp_users w) (fs w)
                (faults w) (clock w + 1) (id_seed w) (trace w)).

(** ** The identity provider's SDK ([auth.Client]) *)

Module Token.
Record t := mk { UID : string }.
End Token.

Module UserRecord.
Record t := mk {
  UID : string;
  Email : string;
  DisplayName : string;
  PhotoURL : string;
  EmailVerified : bool }.
End UserRecord.

(** [c.Auth.VerifyIDToken]: a call to the provider; a credential the
    provider knows yields the token of its subject. *)
Definition Auth_VerifyIDToken (idToken : string) : M (Token.t + Error) :=
  failed <~ call (AuthVerifyIDToken idToken) ;;
  if failed : bool then ret (inr ErrUnavailable)
  else
    tokens <~ read idp_tokens ;;
    ret (match tokens !! idToken with
         | Some uid => inl (Token.mk uid)
         | None => inr ErrInvalidToken
         end).

(** [c.Auth.GetUser]: a call to the provider; the answer is the record
    the directory keeps under the requested uid. *)
Definition Auth_GetUser (uid : string) : M (UserRecord.t + Error) :=
  failed <~ call (AuthGetUser uid) ;;
  if failed : bool then ret (inr ErrUnavailable)
  else
    users <~ read idp_users ;;
    ret (match users !! uid with
         | Some i => inl (UserRecord.mk uid (info_Email i) (info_DisplayName i)
                            (info_PhotoURL i) (info_EmailVerified i))
         | None => inr ErrUserNotFound
         end).

(** ** Package [firebase]: the client wrapper *)

Definition VerifyIDToken (idToken : string) : M (Token.t + Error) :=
  ready <~ read auth_ready ;;
  if negb ready then ret (inr ErrAuthNotInitialized)
  else if String.eqb idToken "" then ret (inr ErrTokenRequired)
  else Auth_VerifyIDToken idToken.

Definition GetUser (uid : string) : M (UserRecord.t + Error) :=
  ready <~ read auth_ready ;;
  if negb ready then ret (inr ErrAuthNotInitialized)
  else if String.eqb uid "" then ret (inr ErrUIDRequired)
  else Auth_GetUser uid.

(** ** The document store's SDK ([firestore.Client]) *)

(** [doc.Ref.ID] and the data of the document, if it exists. *)
Record DocumentSnapshot := {
  snap_ID : string;
  snap_data : option Doc }.

Definition Exists (s : DocumentSnapshot) : bool :=
  match snap_data s with Some _ => true | None => false end.

Definition DataTo {A} (decode : Doc → option A) (s : DocumentSnapshot)
  : A + Error :=
  match snap_data s with
  | None => inr ErrNotFound
  | Some d => match decode d with Some a => inl a | None => inr ErrDataTo end
  end.

(** [Collection(coll).Doc(id).Get]: a missing document is reported both
    by the error and by a snapshot that does not exist. *)
Definition Doc_Get (coll id : string) : M (DocumentSnapshot * option Error) :=
  failed <~ call (DocGet coll id) ;;
  if failed : bool
  then ret ({| snap_ID := id; snap_data := None |}, Some ErrUnavailable)
  else
    c <~ read (collection coll) ;;
    ret (match coll_get id c with
         | Some d => ({| snap_ID := id; snap_data := Some d |}, None)
         | None => ({| snap_ID := id; snap_data := None |}, Some ErrNotFound)
         end).

(** [Collection(coll).Doc(id).Set(data)] and
    [Collection(coll).Doc(id).Set(data, firestore.MergeAll)].  A failed
    write leaves the store as it was. *)
Definition Doc_Set (coll id : string) (data : Doc) (merge : bool)
  : M (option Error) :=
  failed <~ call (DocSet coll id merge) ;;
  if failed : bool then ret (Some ErrUnavailable)
  else
    update (λ w, set_collection coll
                   ((if merge then coll_merge else coll_set) id data
                      (collection coll w)) w) ;;;
    ret None.

(** [Collection(coll).Doc(id).Delete] *)
Definition Doc_Delete (coll id : string) : M (option Error) :=
  failed <~ call (DocDelete coll id) ;;
  if failed : bool then ret (Some ErrUnavailable)
  else
    update (λ w, set_collection coll (coll_delete id (collection coll w)) w) ;;;
    ret None.

(** Generated document ids: twenty characters of this alphabet. *)
Definition alphabet : list ascii :=
  list_ascii_of_string
    "ABCDEFGHIJKLMNOPQRSTUVWXYZabcdefghijklmnopqrstuvwxyz0123456789".

Fixpoint uniqueID_chars (k n : nat) : string :=
  match k with
  | O => ""
  | S k' =>
      String (nth (n mod 62) alphabet "A"%char) (uniqueID_chars k' (n / 62))
  end.

Definition uniqueID (seed : nat) : string := uniqueID_chars 20 seed.

Definition next_id : M string :=
  λ w, (uniqueID (id_seed w),
        mkWorld (auth_ready w) (idp_tokens w) (idp_users w) (fs w)
                (faults w) (clock w) (S (id_seed w)) (trace w)).

(** [Collection(coll).Add(data)]: creates a document under a generated
    id; creation fails when that id is taken. *)
Definition Coll_Add (coll : string) (data : Doc) : M (string + Error) :=
  id <~ next_id ;;
  failed <~ call (CollAdd coll) ;;
  if failed : bool then ret (inr ErrUnavailable)
  else
    c <~ read (collection coll) ;;
    match coll_get id c with
    | Some _ => ret (inr ErrAlreadyExists)
    | None =>
        update (set_collection coll (coll_set id data c)) ;;;
        ret (inl id)
    end.

(** [Collection(coll).Where(field, "==", value).Limit(1).Documents] and
    the first [iter.Next()]. *)
Definition Where_Limit1_Next (coll field value : string)
  : M (DocumentSnapshot + Error) :=
  failed <~ call (QueryDocuments coll (Some (field, value))) ;;
  if failed : bool then ret (inr ErrUnavailable)
  else
    c <~ read (collection coll) ;;
    ret (match coll_where field value c with
         | Some (id, d) => inl {| snap_ID := id; snap_data := Some d |}
         | None => inr ErrDone
         end).

(** [Collection(coll).Documents] read to its end: every document in the
    store's order, or the error that interrupts the iteration. *)
Definition Documents_All (coll : string) : M (list DocumentSnapshot + Error) :=
  failed <~ call (QueryDocuments coll None) ;;
  if failed : bool then ret (inr ErrUnavailable)
  else
    c <~ read (collection coll) ;;
    ret (inl ((λ p, {| snap_ID := p.1; snap_data := Some p.2 |}) <$> c)).

(** ** [gin]: the request context *)

(** What the middleware stores under a key with [c.Set]. *)
Inductive CtxValue :=
| CtxUser (u : User.t)
| CtxString (s : string)
| CtxToken (t : Token.t).

Abbreviation Keys := (gmap string CtxValue).

(** The body [gin.H{"success": ..., "message": ...}]. *)
Record H := { H_success : bool; H_message : string }.

(** What a middleware does with a request: [c.JSON] and [c.Abort], or
    [c.Next] with the keys it has set. *)
Inductive Outcome :=
| Abort (status : nat) (body : H)
| Next (keys : Keys).

(** ** Package [middleware] *)

Definition unauthorized (message : string) : Outcome :=
  Abort StatusUnauthorized {| H_success := false; H_message := message |}.

(** [c.Set("user", user); c.Set("uid", token.UID); c.Set("token", token)] *)
Definition set_identity (user : User.t) (token : Token.t) (keys : Keys) : Keys :=
  <["token" := CtxToken token]>
    (<["uid" := CtxString (Token.UID token)]>
       (<["user" := CtxUser user]> keys)).

(** The [models.User] built from the provider's record; the fields that
    the struct literal does not name are zero. *)
Definition User_of_record (userRecord : UserRecord.t) : User.t :=
  User.mk (UserRecord.UID userRecord) (UserRecord.Email userRecord)
          (UserRecord.DisplayName userRecord) (UserRecord.PhotoURL userRecord)
          "" (UserRecord.EmailVerified userRecord) 0 0 0.

(** "Merge Firestore data with Auth data" *)
Definition merge_profile (user firestoreUser : User.t) : User.t :=
  User.mk (User.UID user) (User.Email user) (User.DisplayName user)
          (User.PhotoURL user) (User.Provider firestoreUser)
          (User.EmailVerified user) (User.CreatedAt firestoreUser)
          (User.UpdatedAt firestoreUser) (User.LastLoginAt firestoreUser).

(** [AuthMiddleware.RequireAuth], applied to the value of the
    [Authorization] header ([""] when the header is absent) and to the
    keys already in the context. *)
Definition RequireAuth (authHeader : string) (keys : Keys) : M Outcome :=
  if String.eqb authHeader "" then
    ret (unauthorized "Authorization header is required")
  else
    let tokenParts := strings_Split authHeader " " in
    if negb (Nat.eqb (length tokenParts) 2)
       || negb (String.eqb (nth 0 tokenParts "") "Bearer")
    then
      ret (unauthorized
             "Invalid authorization header format. Use: Bearer <token>")
    else
      let idToken := nth 1 tokenParts "" in
      verified <~ VerifyIDToken idToken ;;
      match verified with
      | inr _ => ret (unauthorized "Invalid or expired token")
      | inl token =>
          fetched <~ GetUser (Token.UID token) ;;
          match fetched with
          | inr _ => ret (unauthorized "Failed to retrieve user information")
          | inl userRecord =>
              let user := User_of_record userRecord in
              got <~ Doc_Get "users" (Token.UID token) ;;
              let (doc, err) := got : DocumentSnapshot * option Error in
              let user :=
                match err with
                | None =>
                    if Exists doc then
                      match DataTo DataTo_User doc with
                      | inl firestoreUser => merge_profile user firestoreUser
                      | inr _ => user
                      end
                    else user
                | Some _ => user
                end in
              ret (Next (set_identity user token keys))
          end
      end.

(** [AuthMiddleware.OptionalAuth] *)
Definition OptionalAuth (authHeader : string) (keys : Keys) : M Outcome :=
  if String.eqb authHeader "" then ret (Next keys)
  else
    let tokenParts := strings_Split authHeader " " in
    if negb (Nat.eqb (length tokenParts) 2)
       || negb (String.eqb (nth 0 tokenParts "") "Bearer")
    then ret (Next keys)
    else
      let idToken := nth 1 tokenParts "" in
      verified <~ VerifyIDToken idToken ;;
      match verified with
      | inr _ => ret (Next keys)
      | inl token =>
          fetched <~ GetUser (Token.UID token) ;;
          match fetched with
          | inr _ => ret (Next keys)
          | inl userRecord =>
              let user := User_of_record userRecord in
              ret (Next (set_identity user token keys))
          end
      end.

(** ** Package [handlers]: registrations *)

Module RegistrationResponse.
Record t := mk {
  Success : bool;
  Message : string;
  Registration : option Registration.t;      (* omitted when nil *)
  Registrations : list Registration.t }.
End RegistrationResponse.

(** [c.JSON(status, body)] *)
Abbreviation Reply := (nat * RegistrationResponse.t)%type.

Definition failure (status : nat) (message : string) : Reply :=
  (status, RegistrationResponse.mk false message None []).

(** The request body as the JSON decoder leaves it: its error, or the
    decoded fields before validation. *)
Inductive Body :=
| BadJSON (err : string)
| JSON (input : RegistrationInput.t).

(** [getUserRegistration] *)
Definition getUserRegistration (userID : string) : M (Registration.t + Error) :=
  next <~ Where_Limit1_Next "registrations" "userId" userID ;;
  match next with
  | inr err => ret (inr err)
  | inl doc =>
      match DataTo DataTo_Registration doc with
      | inr err => ret (inr err)
      | inl registration =>
          ret (inl (Registration.with_ID (snap_ID doc) registration))
      end
  end.

(** The struct literal of [CreateRegistration]. *)
Definition new_registration (uid : string) (input : RegistrationInput.t)
    (now : Time) : Registration.t :=
  Registration.mk "" uid
    (RegistrationInput.FirstName input) (RegistrationInput.LastName input)
    (RegistrationInput.Email input) (RegistrationInput.Phone input)
    (RegistrationInput.Organization input) (RegistrationInput.JobTitle input)
    (RegistrationInput.Country input) (RegistrationInput.City input)
    (RegistrationInput.DietaryReqs input)
    (RegistrationInput.SpecialNeeds input)
    (RegistrationInput.TicketType input)
    (RegistrationInput.SessionsOfInt input)
    "pending" now now now.

(** The map literal [updates] of [UpdateRegistration]. *)
Definition updates (input : RegistrationInput.t) (now : Time) : Doc :=
  list_to_map
    [ ("firstName", VString (RegistrationInput.FirstName input));
      ("lastName", VString (RegistrationInput.LastName input));
      ("email", VString (RegistrationInput.Email input));
      ("phone", VString (RegistrationInput.Phone input));
      ("organization", VString (RegistrationInput.Organization input));
      ("jobTitle", VString (RegistrationInput.JobTitle input));
      ("country", VString (RegistrationInput.Country input));
      ("city", VString (RegistrationInput.City input));
      ("dietaryRequirements", VString (RegistrationInput.DietaryReqs input));
      ("specialNeeds", VString (RegistrationInput.SpecialNeeds input));
      ("ticketType", VString (RegistrationInput.TicketType input));
      ("sessionsOfInterest", enc_strings (RegistrationInput.SessionsOfInt input));
      ("updatedAt", VTime now) ].

Section Binding.

(** The [email] rule of the validator, which is not part of this
    repository. *)
Variable is_email : string → bool.

(** The [binding:"..."] tags of [RegistrationInput], in field order:
    the fields and rules that fail. *)
Definition violations (input : RegistrationInput.t) : list (string * string) :=
  (if String.eqb (RegistrationInput.FirstName input) ""
   then [("FirstName", "required")] else [])
  ++ (if String.eqb (RegistrationInput.LastName input) ""
      then [("LastName", "required")] else [])
  ++ (if String.eqb (RegistrationInput.Email input) ""
      then [("Email", "required")]
      else if is_email (RegistrationInput.Email input) then []
      else [("Email", "email")])
  ++ (if String.eqb (RegistrationInput.Country input) ""
      then [("Country", "required")] else [])
  ++ (if String.eqb (RegistrationInput.TicketType input) ""
      then [("TicketType", "required")] else []).

Definition violation_text (v : string * string) : string :=
  "Key: 'RegistrationInput." ++ v.1 ++ "' Error:Field validation for '"
    ++ v.1 ++ "' failed on the '" ++ v.2 ++ "' tag".

(** [c.ShouldBindJSON(&input)] *)
Definition ShouldBindJSON (body : Body) : RegistrationInput.t + Error :=
  match body with
  | BadJSON err => inr (ErrBind err)
  | JSON input =>
      match violations input with
      | [] => inl input
      | vs => inr (ErrBind (String.concat (String "010" "")
                              (violation_text <$> vs)))
      end
  end.

(** [RegistrationHandler.CreateRegistration] *)
Definition CreateRegistration (keys : Keys) (body : Body) : M Reply :=
  match keys !! "user" with
  | None => ret (failure StatusUnauthorized "User not authenticated")
  | Some (CtxUser user) =>
      match ShouldBindJSON body with
      | inr err =>
          ret (failure StatusBadRequest ("Invalid request: " ++ Error_text err))
      | inl input =>
          existing <~ getUserRegistration (User.UID user) ;;
          match existing with
          | inl existingReg =>
              ret (StatusConflict,
                   RegistrationResponse.mk false
                     "User already has a registration. Please update instead."
                     (Some existingReg) [])
          | inr _ =>
              now <~ time_Now ;;
              let registration := new_registration (User.UID user) input now in
              added <~ Coll_Add "registrations" (Registration_fields registration) ;;
              match added with
              | inr err =>
                  ret (failure StatusInternalServerError
                         ("Failed to create registration: " ++ Error_text err))
              | inl docRef_ID =>
                  ret (StatusCreated,
                       RegistrationResponse.mk true
                         "Registration created successfully"
                         (Some (Registration.with_ID docRef_ID registration)) [])
              end
          end
      end
  | Some _ =>
      ret (failure StatusInternalServerError "Failed to retrieve user information")
  end.

(** [RegistrationHandler.UpdateRegistration] *)
Definition UpdateRegistration (keys : Keys) (body : Body) : M Reply :=
  match keys !! "user" with
  | None => ret (failure StatusUnauthorized "User not authenticated")
  | Some (CtxUser user) =>
      match ShouldBindJSON body with
      | inr err =>
          ret (failure StatusBadRequest ("Invalid request: " ++ Error_text err))
      | inl input =>
          existing <~ getUserRegistration (User.UID user) ;;
          match existing with
          | inr _ =>
              ret (failure StatusNotFound
                     "Registration not found. Please create one first.")
          | inl existingReg =>
              now <~ time_Now ;;
              err <~ Doc_Set "registrations" (Registration.ID existingReg)
                             (updates input now) true ;;
              match err with
              | Some err =>
                  ret (failure StatusInternalServerError
                         ("Failed to update registration: " ++ Error_text err))
              | None =>
                  reread <~ getUserRegistration (User.UID user) ;;
                  let updatedReg :=
                    match reread with
                    | inl r => Some r
                    | inr _ => None
                    end in
                  ret (StatusOK,
                       RegistrationResponse.mk true
                         "Registration updated successfully" updatedReg [])
              end
          end
      end
  | Some _ =>
      ret (failure StatusInternalServerError "Failed to retrieve user information")
  end.

End Binding.

(** [RegistrationHandler.GetMyRegistration] *)
Definition GetMyRegistration (keys : Keys) : M Reply :=
  match keys !! "user" with
  | None => ret (failure StatusUnauthorized "User not authenticated")
  | Some (CtxUser user) =>
      found <~ getUserRegistration (User.UID user) ;;
      match found with
      | inr _ => ret (failure StatusNotFound "Registration not found")
      | inl registration =>
          ret (StatusOK,
               RegistrationResponse.mk true
                 "Registration retrieved successfully" (Some registration) [])
      end
  | Some _ =>
      ret (failure StatusInternalServerError "Failed to retrieve user information")
  end.

(** [RegistrationHandler.DeleteRegistration] *)
Definition DeleteRegistration (keys : Keys) : M Reply :=
  match keys !! "user" with
  | None => ret (failure StatusUnauthorized "User not authenticated")
  | Some (CtxUser user) =>
      existing <~ getUserRegistration (User.UID user) ;;
      match existing with
      | inr _ => ret (failure StatusNotFound "Registration not found")
      | inl existingReg =>
          err <~ Doc_Delete "registrations" (Registration.ID existingReg) ;;
          match err with
          | Some err =>
              ret (failure StatusInternalServerError
                     ("Failed to delete registration: " ++ Error_text err))
          | None =>
              ret (StatusOK,
                   RegistrationResponse.mk true
                     "Registration deleted successfully" None [])
          end
      end
  | Some _ =>
      ret (failure StatusInternalServerError "Failed to retrieve user information")
  end.

(** The loop body of [GetAllRegistrations]: a document that does not
    decode is skipped. *)
Definition decode_listed (doc : DocumentSnapshot) : option Registration.t :=
  match DataTo DataTo_Registration doc with
  | inl reg => Some (Registration.with_ID (snap_ID doc) reg)
  | inr _ => None
  end.

(** [RegistrationHandler.GetAllRegistrations] *)
Definition GetAllRegistrations : M Reply :=
  listed <~ Documents_All "registrations" ;;
  match listed with
  | inr err =>
      ret (failure StatusInternalServerError
             ("Failed to retrieve registrations: " ++ Error_text err))
  | inl docs =>
      ret (StatusOK,
           RegistrationResponse.mk true "Registrations retrieved successfully"
             None (omap decode_listed docs))
  end.

(** ** Package [handlers]: authentication *)

Module AuthResponse.
Record t := mk {
  Success : bool;
  Message : string;
  User : option User.t;                      (* omitted when nil *)
  Token : string }.
End AuthResponse.

(** [user.CreatedAt = t] and [user.UpdatedAt = t] through the pointer. *)
Definition set_CreatedAt (t : Time) (u : User.t) : User.t :=
  User.mk (User.UID u) (User.Email u) (User.DisplayName u) (User.PhotoURL u)
          (User.Provider u) (User.EmailVerified u) t (User.UpdatedAt u)
          (User.LastLoginAt u).

Definition set_UpdatedAt (t : Time) (u : User.t) : User.t :=
  User.mk (User.UID u) (User.Email u) (User.DisplayName u) (User.PhotoURL u)
          (User.Provider u) (User.EmailVerified u) (User.CreatedAt u) t
          (User.LastLoginAt u).

(** [AuthHandler.saveUserToFirestore]; [user] is a pointer in the source,
    so the struct as the function leaves it is returned with the error. *)
Definition saveUserToFirestore (user : User.t) : M (User.t * option Error) :=
  got <~ Doc_Get "users" (User.UID user) ;;
  let (doc, err) := got : DocumentSnapshot * option Error in
  user <~ (if (match err with Some _ => true | None => false end)
              || negb (Exists doc)
           then
             now <~ time_Now ;;
             ret (set_CreatedAt now user)
           else
             match DataTo DataTo_User doc with
             | inl existingUser =>
                 ret (set_CreatedAt (User.CreatedAt existingUser) user)
             | inr _ => ret user
             end) ;;
  now <~ time_Now ;;
  let user := set_UpdatedAt now user in
  err <~ Doc_Set "users" (User.UID user) (User_fields user) false ;;
  ret (user, err).

(** The body of a login request as the JSON decoder leaves it. *)
Inductive LoginBody :=
| BadLoginJSON
| LoginJSON (idToken : string).

(** [c.ShouldBindJSON(&req)] for [GoogleAuthRequest]: [idToken] is
    required. *)
Definition ShouldBindLogin (body : LoginBody) : option string :=
  match body with
  | BadLoginJSON => None
  | LoginJSON idToken => if String.eqb idToken "" then None else Some idToken
  end.

(** [AuthHandler.GoogleLogin] *)
Definition GoogleLogin (body : LoginBody) : M (nat * AuthResponse.t) :=
  match ShouldBindLogin body with
  | None =>
      ret (StatusBadRequest,
           AuthResponse.mk false "Invalid request: idToken is required" None "")
  | Some idToken =>
      verified <~ VerifyIDToken idToken ;;
      match verified with
      | inr _ =>
          ret (StatusUnauthorized,
               AuthResponse.mk false "Invalid or expired token" None "")
      | inl token =>
          fetched <~ GetUser (Token.UID token) ;;
          match fetched with
          | inr _ =>
              ret (StatusInternalServerError,
                   AuthResponse.mk false "Failed to retrieve user information"
                     None "")
          | inl userRecord =>
              now <~ time_Now ;;
              let user :=
                User.mk (UserRecord.UID userRecord) (UserRecord.Email userRecord)
                        (UserRecord.DisplayName userRecord)
                        (UserRecord.PhotoURL userRecord) "google.com" false
                        0 0 now in
              saved <~ saveUserToFirestore user ;;
              let (user, err) := saved : User.t * option Error in
              match err with
              | Some _ =>
                  ret (StatusOK,
                       AuthResponse.mk true
                         "Logged in successfully (profile save pending)"
                         (Some user) idToken)
              | None =>
                  ret (StatusOK,
                       AuthResponse.mk true "Logged in successfully"
                         (Some user) idToken)
              end
          end
      end
  end.

(** ** Package [handlers]: the other authentication handlers *)

(** [AuthHandler.getUserFromFirestore] *)
Definition getUserFromFirestore (uid : string) : M (User.t + Error) :=
  got <~ Doc_Get "users" uid ;;
  let (doc, err) := got : DocumentSnapshot * option Error in
  match err with
  | Some err => ret (inr err)
  | None => ret (DataTo DataTo_User doc)
  end.

(** [AuthHandler.VerifyToken], applied to the value of the
    [Authorization] header. *)
Definition VerifyToken (authHeader : string) : M (nat * AuthResponse.t) :=
  if String.eqb authHeader "" then
    ret (StatusUnauthorized,
         AuthResponse.mk false "Authorization header is required" None "")
  else
    let tokenParts := strings_Split authHeader " " in
    if negb (Nat.eqb (length tokenParts) 2)
       || negb (String.eqb (nth 0 tokenParts "") "Bearer")
    then
      ret (StatusUnauthorized,
           AuthResponse.mk false "Invalid authorization header format" None "")
    else
      let idToken := nth 1 tokenParts "" in
      verified <~ VerifyIDToken idToken ;;
      match verified with
      | inr _ =>
          ret (StatusUnauthorized,
               AuthResponse.mk false "Invalid or expired token" None "")
      | inl token =>
          found <~ getUserFromFirestore (Token.UID token) ;;
          match found with
          | inl user =>
              ret (StatusOK,
                   AuthResponse.mk true "Token is valid" (Some user) "")
          | inr _ =>
              fetched <~ GetUser (Token.UID token) ;;
              match fetched with
              | inr _ =>
                  ret (StatusInternalServerError,
                       AuthResponse.mk false
                         "Failed to retrieve user information" None "")
              | inl userRecord =>
                  let user :=
                    User.mk (UserRecord.UID userRecord)
                            (UserRecord.Email userRecord)
                            (UserRecord.DisplayName userRecord)
                            (UserRecord.PhotoURL userRecord) "" false 0 0 0 in
                  ret (StatusOK,
                       AuthResponse.mk true "Token is valid" (Some user) "")
              end
          end
      end.

(** [AuthHandler.Logout] *)
Definition Logout : nat * AuthResponse.t :=
  (StatusOK, AuthResponse.mk true "Logged out successfully" None "").

(** [AuthHandler.GetCurrentUser] *)
Definition GetCurrentUser (keys : Keys) : nat * AuthResponse.t :=
  match keys !! "user" with
  | None =>
      (StatusUnauthorized, AuthResponse.mk false "User not authenticated" None "")
  | Some (CtxUser user) =>
      (StatusOK,
       AuthResponse.mk true "User retrieved successfully" (Some user) "")
  | Some _ =>
      (StatusInternalServerError,
       AuthResponse.mk false "Failed to retrieve user information" None "")
  end.

(** ** Package [middleware]: cross-origin requests *)


(** The headers of a response. *)
Abbreviation Headers := (gmap string string).





(** ** Package [config] *)

(** The environment of the process: the variables that are set. *)
Abbreviation Env := (gmap string string).

(** [getEnv], over [os.LookupEnv] *)
Definition getEnv (env : Env) (key defaultValue : string) : string :=
  match env !! key with
  | Some value => value
  | None => defaultValue
  end.

Module Config.
Record t := mk {
  ServerPort : string;
  ServerHost : string;
  FirebaseCredentialsFile : string;
  FirebaseProjectID : string;
  GoogleClientID : string;
  GoogleClientSecret : string;
  GoogleRedirectURL : string;
  SessionSecret : string;
  Environment : string;
  FrontendURL : string }.
End Config.

(** [config.Load] *)
Definition Load (env : Env) : Config.t :=
  Config.mk
    (getEnv env "SERVER_PORT" "8080")
    (getEnv env "SERVER_HOST" "0.0.0.0")
    (getEnv env "FIREBASE_CREDENTIALS_FILE" "firebase-service-account.json")
    (getEnv env "FIREBASE_PROJECT_ID" "")
    (getEnv env "GOOGLE_CLIENT_ID" "")
    (getEnv env "GOOGLE_CLIENT_SECRET" "")
    (getEnv env "GOOGLE_REDIRECT_URL"
            "http://localhost:8080/auth/google/callback")
    (getEnv env "SESSION_SECRET" "your-secret-key-change-in-production")
    (getEnv env "ENVIRONMENT" "development")
    (getEnv env "FRONTEND_URL" "http://localhost:3000").

(** [Config.IsDevelopment] and [Config.IsProduction] *)
Definition IsDevelopment (c : Config.t) : bool :=
  String.eqb (Config.Environment c) "development".

Definition IsProduction (c : Config.t) : bool :=
  String.eqb (Config.Environment c) "production".

(** ** Package [router] *)

(** The fields of [cors.Config] that [Setup] fills. *)
Module CORSConfig.
Record t := mk {
  AllowOrigins : list string;
  AllowMethods : list string;
  AllowHeaders : list string;
  ExposeHeaders : list string;
  AllowCredentials : bool }.
End CORSConfig.

(** [Setup]: the configuration handed to [cors.New]. *)
Definition Setup_corsConfig (cfg : Config.t) : CORSConfig.t :=
  let corsConfig :=
    CORSConfig.mk [Config.FrontendURL cfg]
      ["GET"; "POST"; "PUT"; "PATCH"; "DELETE"; "OPTIONS"]
      ["Origin"; "Content-Type"; "Accept"; "Authorization"]
      ["Content-Length"] true in
  if IsDevelopment cfg then
    CORSConfig.mk ["*"] (CORSConfig.AllowMethods corsConfig)
      (CORSConfig.AllowHeaders corsConfig)
      (CORSConfig.ExposeHeaders corsConfig) false
  else corsConfig.

(** [Setup]: whether [gin.SetMode(gin.ReleaseMode)] is called. *)
Definition Setup_releaseMode (cfg : Config.t) : bool := IsProduction cfg.

(** What a route of a group with [Use(authMiddleware.RequireAuth())]
    answers: the response of the middleware when it aborts, else that of
    the handler, run with the keys that the middleware has set. *)
Inductive Answer (B : Type) :=
| Rejected (status : nat) (body : H)
| Answered (reply : nat * B).

Arguments Rejected {B} status body.
Arguments Answered {B} reply.

Definition behind_RequireAuth {B} (handler : Keys → M (nat * B))
    (authHeader : string) : M (Answer B) :=
  out <~ RequireAuth authHeader ∅ ;;
  match out with
  | Abort status body => ret (Rejected status body)
  | Next keys =>
      reply <~ handler keys ;;
      ret (Answered reply)
  end.

(** ** Package [firebase]: closing the client *)

(** The fields of [Client] that [Close] reads and writes: whether
    [Firestore] is set, whether [closeOnce] has run, and [closeErr]. *)
Module Client.
Record t := mk {
  Firestore : bool;
  closeOnce : bool;
  closeErr : option Error }.
End Client.

(** [Client.Close], applied to the client ([None] for a nil pointer) and
    to what [Firestore.Close] would return if called now; the result is
    the error returned, the client as it is left, and whether
    [Firestore.Close] has been called. *)
Definition Close (c : option Client.t) (firestore_Close : option Error)
  : option Error * option Client.t * bool :=
  match c with
  | None => (None, None, false)
  | Some c =>
      if Client.closeOnce c then (Client.closeErr c, Some c, false)
      else if Client.Firestore c then
        (firestore_Close, Some (Client.mk true true firestore_Close), true)
      else
        (Client.closeErr c, Some (Client.mk false true (Client.closeErr c)),
         false)
  end.

(** * The vocabulary of the properties *)

(** Does the [n]-th of the calls still to come fail? *)
Definition fails (n : nat) (w : World) : bool := nth n (faults w) false.

(** A space occurs in the string. *)
Fixpoint has_space (s : string) : bool :=
  match s with
  | EmptyString => false
  | String c s' => Ascii.eqb c " " || has_space s'
  end.

(** What follows the prefix [p] in [s], if [s] starts with [p]. *)
Fixpoint strip_prefix (p s : string) : option string :=
  match p, s with
  | EmptyString, _ => Some s
  | String a p', String b s' => if Ascii.eqb a b then strip_prefix p' s' else None
  | String _ _, EmptyString => None
  end.

(** The header is [Bearer], one space, and a non-empty token without
    spaces. *)
Definition bearer_shape (authHeader : string) : bool :=
  match strip_prefix "Bearer " authHeader with
  | Some token => negb (String.eqb token "") && negb (has_space token)
  | None => false
  end.

(** Sample worlds and requests, on which the handlers are run. *)
Module Sample.

Definition ada_info : UserInfo :=
  {| info_Email := "ada@example.com"; info_DisplayName := "Ada Lovelace";
     info_PhotoURL := ""; info_EmailVerified := true |}.

(** A provider that knows the credential [tok1] of subject [u1], and
    an empty store. *)
Definition fresh (faults : list bool) : World :=
  mkWorld true {["tok1" := "u1"]} {["u1" := ada_info]} ∅ faults 1000 0 [].

(** A stored profile of [u1], with a field [role] that [models.User]
    does not name. *)
Definition profile : Doc :=
  <["role" := VString "speaker"]>
    (User_fields
       (User.mk "u1" "ada@example.com" "Ada Lovelace" "" "google.com" true
                5 6 7)).

Definition with_profile (faults : list bool) : World :=
  set_collection "users" [("u1", profile)] (fresh faults).

Definition ada : RegistrationInput.t :=
  RegistrationInput.mk "Ada" "Lovelace" "ada@example.com" "" "" "" "UK" ""
                       "" "" "standard" [].

Definition ada_london : RegistrationInput.t :=
  RegistrationInput.mk "Ada" "Lovelace" "ada@example.com" "" "" "" "UK"
                       "London" "" "" "standard" [].

(** A stand-in for the validator's [email] rule: an [@] occurs. *)
Fixpoint is_email (s : string) : bool :=
  match s with
  | EmptyString => false
  | String c s' => Ascii.eqb c "@" || is_email s'
  end.

(** The store once Ada has registered, at time 900. *)
Definition ada_registered : Registration.t :=
  Registration.with_ID "reg1" (new_registration "u1" ada 900).

Definition with_registration (faults : list bool) : World :=
  set_collection "registrations"
    [("reg1", Registration_fields ada_registered)] (fresh faults).

(** The context of a request of [u1] that has passed [RequireAuth]. *)
Definition u1 : User.t :=
  User.mk "u1" "ada@example.com" "Ada Lovelace" "" "" true 0 0 0.

Definition keys_u1 : Keys := set_identity u1 (Token.mk "u1") ∅.

End Sample.

(** The Profile of the subject cannot be used: the read fails, or there
    is no such document, or the document does not decode. *)
Definition profile_unreadable (uid : string) (w : World) : bool :=
  fails 0 w
  || match coll_get uid (collection "users" w) with
     | None => true
     | Some d => match DataTo_User d with Some _ => false | None => true end
     end.

(** What the specification says of the optional entry point: the steps
    of [RequireAuth], every failure turned into "no identity present". *)
Definition resolveOptional_spec (authHeader : string) (keys : Keys) : M Outcome :=
  out <~ RequireAuth authHeader keys ;;
  ret (match out with
       | Abort _ _ => Next keys
       | Next keys' => Next keys'
       end).

(** The identity without what the Profile contributes. *)
Definition without_enrichment (u : User.t) : User.t :=
  User.mk (User.UID u) (User.Email u) (User.DisplayName u) (User.PhotoURL u)
          "" (User.EmailVerified u) 0 0 0.

(** What a handler finds under the key [user] after the middleware. *)
Definition ctx_user (o : Outcome) : option CtxValue :=
  match o with
  | Next keys => keys !! "user"
  | Abort _ _ => None
  end.

(** The input fails the validation of its required fields. *)
Definition invalid (is_email : string → bool) (input : RegistrationInput.t)
  : Prop :=
  RegistrationInput.FirstName input = ""
  ∨ RegistrationInput.LastName input = ""
  ∨ RegistrationInput.Email input = ""
  ∨ is_email (RegistrationInput.Email input) = false
  ∨ RegistrationInput.Country input = ""
  ∨ RegistrationInput.TicketType input = "".

(** The ids of the collection ascend strictly: the order of the store. *)
Fixpoint ordered (c : Collection) : bool :=
  match c with
  | [] => true
  | (k, _) :: c' => forallb (λ p, String.ltb k p.1) c' && ordered c'
  end.

(** The world once a call has been made, once the clock has been read,
    once a document id has been generated. *)
Definition after (c : Call) (w : World) : World := (call c w).2.
Definition tick (w : World) : World := (time_Now w).2.
Definition bump (w : World) : World := (next_id w).2.

(** What [getUserRegistration] answers in a world. *)
Definition lookup_registration (userID : string) (w : World)
  : Registration.t + Error :=
  if fails 0 w then inr ErrUnavailable
  else match coll_where "userId" userID (collection "registrations" w) with
       | None => inr ErrDone
       | Some (id, d) =>
           match DataTo_Registration d with
           | Some r => inl (Registration.with_ID id r)
           | None => inr ErrDataTo
           end
       end.

(** The world once [CreateRegistration] has stored [r] for [uid]. *)
Definition stored (uid : string) (r : Registration.t) (w : World) : World :=
  set_collection "registrations"
    (coll_set (Registration.ID r) (Registration_fields r)
       (collection "registrations" w))
    (after (CollAdd "registrations")
       (bump (tick (after (QueryDocuments "registrations"
                             (Some ("userId", uid))) w)))).

(** The world once [UpdateRegistration] has written to document [id]. *)
Definition written (uid id : string) (input : RegistrationInput.t) (w : World)
  : World :=
  set_collection "registrations"
    (coll_merge id (updates input (clock w)) (collection "registrations" w))
    (after (DocSet "registrations" id true)
       (tick (after (QueryDocuments "registrations" (Some ("userId", uid))) w))).

(** The record that [UpdateRegistration] leaves in place of [r0]. *)
Definition updated (id : string) (r0 : Registration.t)
    (input : RegistrationInput.t) (now : Z) : Registration.t :=
  Registration.mk id (Registration.UserID r0)
    (RegistrationInput.FirstName input) (RegistrationInput.LastName input)
    (RegistrationInput.Email input) (RegistrationInput.Phone input)
    (RegistrationInput.Organization input) (RegistrationInput.JobTitle input)
    (RegistrationInput.Country input) (RegistrationInput.City input)
    (RegistrationInput.DietaryReqs input)
    (RegistrationInput.SpecialNeeds input)
    (RegistrationInput.TicketType input)
    (RegistrationInput.SessionsOfInt input)
    (Registration.PaymentStatus r0) (Registration.RegistrationDate r0)
    (Registration.CreatedAt r0) now.

(** The fields that [UpdateRegistration] writes. *)
Definition written_fields : list string :=
  [ "firstName"; "lastName"; "email"; "phone"; "organization"; "jobTitle";
    "country"; "city"; "dietaryRequirements"; "specialNeeds"; "ticketType";
    "sessionsOfInterest"; "updatedAt" ].

(** The operations of the registration store. *)
Inductive Operation :=
| OpCreate (body : Body)
| OpGetBySubject
| OpUpdate (body : Body)
| OpDelete
| OpListAll.

(** The handler of each operation. *)
Definition perform (is_email : string → bool) (keys : Keys) (op : Operation)
  : M Reply :=
  match op with
  | OpCreate body => CreateRegistration is_email keys body
  | OpGetBySubject => GetMyRegistration keys
  | OpUpdate body => UpdateRegistration is_email keys body
  | OpDelete => DeleteRegistration keys
  | OpListAll => GetAllRegistrations
  end.

(** The number of registration documents of a subject. *)
Definition registrations_of (uid : string) (w : World) : nat :=
  coll_count "userId" uid (collection "registrations" w).

(** The lookup of the subject's registration fails with an error other
    than [iterator.Done]: the store cannot be reached, or the document
    found does not decode. *)
Definition lookup_fails (keys : Keys) (w : World) : bool :=
  match keys !! "user" with
  | Some (CtxUser user) =>
      match (getUserRegistration (User.UID user) w).1 with
      | inl _ | inr ErrDone => false
      | inr _ => true
      end
  | _ => false
  end.

(** The check for an existing registration that [op] makes, if it makes
    one before it writes, fails. *)
Definition check_fails (keys : Keys) (op : Operation) (w : World) : bool :=
  match op with
  | OpCreate _ => lookup_fails keys w
  | _ => false
  end.

(** The fields of a Profile document that [models.User] names. *)
Definition profile_fields : list string :=
  [ "uid"; "email"; "displayName"; "photoUrl"; "provider"; "emailVerified";
    "createdAt"; "updatedAt"; "lastLoginAt" ].

(** What the specification says of the write of a later login: merge
    semantics, every field that is not touched is left as it was. *)
Definition merge_write_spec (touched : list string) (old new : Doc) : Prop :=
  ∀ k, k ∉ touched → new !! k = old !! k.

(** The Profile document of a subject. *)
Definition profile_of (uid : string) (w : World) : option Doc :=
  coll_get uid (collection "users" w).

(** ** Vocabulary of the further properties *)

(** The reply of a handler that finds no registration. *)
Definition not_found (message : string) : Reply :=
  (StatusNotFound, RegistrationResponse.mk false message None []).

(** The query that [getUserRegistration] makes. *)
Definition lookup_call (uid : string) : Call :=
  QueryDocuments "registrations" (Some ("userId", uid)).

(** The world once [DeleteRegistration] has deleted document [id]. *)
Definition deleted (uid id : string) (w : World) : World :=
  set_collection "registrations"
    (coll_delete id (collection "registrations" w))
    (after (DocDelete "registrations" id) (after (lookup_call uid) w)).

(** Further sample worlds. *)
Module Scenario.

(** Ada's registration, and before it a document whose [userId] is not a
    string. *)
Definition with_corrupt_document (faults : list bool) : World :=
  set_collection "registrations"
    [("bad0", {["userId" := VInt 3]});
     ("reg1", Registration_fields Sample.ada_registered)]
    (Sample.fresh faults).

End Scenario.

(** The call is one to the identity provider. *)
Definition is_provider_call (c : Call) : bool :=
  match c with
  | AuthVerifyIDToken _ | AuthGetUser _ => true
  | _ => false
  end.

(** The record that the provider returns for a subject of its
    directory. *)
Definition record_of (uid : string) (i : UserInfo) : UserRecord.t :=
  UserRecord.mk uid (info_Email i) (info_DisplayName i) (info_PhotoURL i)
                (info_EmailVerified i).

(** The Profile of the subject as the third call of a request reads it,
    when it can be read and decodes. *)
Definition readable_profile (uid : string) (w : World) : option User.t :=
  if fails 2 w then None
  else coll_get uid (collection "users" w) ≫= DataTo_User.

(** The world once the provider has verified the credential and
    returned the record of its subject. *)
Definition identified (idToken uid : string) (w : World) : World :=
  after (AuthGetUser uid) (after (AuthVerifyIDToken idToken) w).

(** The provider is reached and knows the credential and its subject. *)
Definition provider_accepts (idToken uid : string) (i : UserInfo) (w : World)
  : Prop :=
  auth_ready w = true
  ∧ has_space idToken = false
  ∧ idToken ≠ ""
  ∧ uid ≠ ""
  ∧ fails 0 w = false
  ∧ fails 1 w = false
  ∧ idp_tokens w !! idToken = Some uid
  ∧ idp_users w !! uid = Some i.

(** The user that [AuthHandler.VerifyToken] builds from the provider's
    record when it cannot use the Profile. *)
Definition fallback_user (userRecord : UserRecord.t) : User.t :=
  User.mk (UserRecord.UID userRecord) (UserRecord.Email userRecord)
          (UserRecord.DisplayName userRecord) (UserRecord.PhotoURL userRecord)
          "" false 0 0 0.

(** The user that [GoogleLogin] builds from the provider's record, at
    the time it reads. *)
Definition login_user (userRecord : UserRecord.t) (now : Z) : User.t :=
  User.mk (UserRecord.UID userRecord) (UserRecord.Email userRecord)
          (UserRecord.DisplayName userRecord) (UserRecord.PhotoURL userRecord)
          "google.com" false 0 0 now.

(** [saveUserToFirestore] finds no Profile to keep the creation date
    of: its read fails, or there is no document. *)
Definition profile_is_new (uid : string) (w : World) : bool :=
  fails 0 w
  || match coll_get uid (collection "users" w) with
     | None => true
     | Some _ => false
     end.

(** The record as [saveUserToFirestore] leaves it. *)
Definition saved_user (user : User.t) (w : World) : User.t :=
  if profile_is_new (User.UID user) w then
    set_UpdatedAt (clock w + 1) (set_CreatedAt (clock w) user)
  else
    set_UpdatedAt (clock w)
      (match coll_get (User.UID user) (collection "users" w) ≫= DataTo_User with
       | Some existingUser => set_CreatedAt (User.CreatedAt existingUser) user
       | None => user
       end).

(** The world as [saveUserToFirestore] leaves it. *)
Definition saved_world (user : User.t) (w : World) : World :=
  let read := after (DocGet "users" (User.UID user)) w in
  let timed :=
    tick (if profile_is_new (User.UID user) w then tick read else read) in
  let called := after (DocSet "users" (User.UID user) false) timed in
  if fails 1 w then called
  else set_collection "users"
         (coll_set (User.UID user) (User_fields (saved_user user w))
            (collection "users" w)) called.

(** * Properties *)

(** ** Documents *)

Lemma dec_enc_strings (d : Doc) (k : string) (l : list string) :
  d !! k = Some (enc_strings l) → dec_strings d k = Some l.
Proof.
  intros H. unfold dec_strings. rewrite H.
  destruct l as [|s l]; [done|]. cbn [enc_strings].
  generalize (s :: l). clear. intros l.
  induction l as [|x l IH]; [done|].
  rewrite fmap_cons. cbn. rewrite IH. done.
Qed.

Lemma DataTo_Registration_fields (r : Registration.t) :
  DataTo_Registration (Registration_fields r) = Some (Registration.with_ID "" r).
Proof.
  destruct r. unfold DataTo_Registration.
  rewrite (dec_enc_strings _ "sessionsOfInterest" SessionsOfInt) by reflexivity.
  reflexivity.
Qed.

(** ** Worlds *)

Lemma collection_set_collection (name : string) (c : Collection) (w : World) :
  collection name (set_collection name c w) = c.
Proof. unfold collection, set_collection. cbn. by rewrite lookup_insert_eq. Qed.

Lemma collection_set_collection_ne (name name' : string) (c : Collection)
    (w : World) :
  name ≠ name' → collection name' (set_collection name c w) = collection name' w.
Proof.
  intros Hne. unfold collection, set_collection. cbn.
  by rewrite lookup_insert_ne.
Qed.

Lemma String_eqb_refl (s : string) : String.eqb s s = true.
Proof. by apply String.eqb_eq. Qed.

(** ** The shape of a bearer header *)

Lemma strings_Split_nonempty (s : string) : strings_Split s " " ≠ [].
Proof.
  destruct s as [|c s]; cbn; [done|].
  destruct (Ascii.eqb c " "); [done|].
  by destruct (strings_Split s " ").
Qed.

(** Joining the parts with the separator gives the string back. *)
Lemma strings_Split_concat (s : string) :
  String.concat " " (strings_Split s " ") = s.
Proof.
  induction s as [|c s IH]; [done|]. cbn [strings_Split].
  destruct (Ascii.eqb_spec c " ") as [->|Hc].
  - pose proof (strings_Split_nonempty s).
    cbn. destruct (strings_Split s " ") as [|p ps] eqn:E; [done|].
    cbn in *. by rewrite IH.
  - destruct (strings_Split s " ") as [|p ps] eqn:E.
    + by destruct (strings_Split_nonempty s).
    + cbn in *. destruct ps; cbn in *; by rewrite <- IH.
Qed.

(** No part contains the separator. *)
Lemma strings_Split_no_space (s : string) :
  Forall (λ p, has_space p = false) (strings_Split s " ").
Proof.
  induction s as [|c s IH]; cbn [strings_Split].
  - by repeat constructor.
  - destruct (Ascii.eqb c " ") eqn:Ec.
    + by constructor.
    + destruct (strings_Split s " ") as [|p ps].
      * repeat constructor. cbn. by rewrite Ec.
      * inversion IH; subst. constructor; [|done]. cbn. by rewrite Ec.
Qed.

(** A header that passes the test of the middleware without having the
    bearer shape carries the empty token. *)
Lemma split_check_token (authHeader : string) :
  bearer_shape authHeader = false →
  negb (Nat.eqb (length (strings_Split authHeader " ")) 2)
  || negb (String.eqb (nth 0 (strings_Split authHeader " ") "") "Bearer") = false →
  nth 1 (strings_Split authHeader " ") "" = "".
Proof.
  intros Hshape Hcheck.
  pose proof (strings_Split_concat authHeader) as Hcat.
  pose proof (strings_Split_no_space authHeader) as Hsp.
  destruct (strings_Split authHeader " ") as [|p0 [|p1 [|p2 ps]]];
    cbn in Hcheck; try discriminate.
  apply negb_false_iff, String.eqb_eq in Hcheck. subst p0.
  cbv [String.concat String.append] in Hcat. subst authHeader.
  inversion Hsp as [|? ? _ Hsp']; subst. inversion Hsp' as [|? ? H1 _]; subst.
  cbn. unfold bearer_shape in Hshape. cbn in Hshape.
  rewrite H1, andb_true_r in Hshape.
  by apply negb_false_iff, String.eqb_eq in Hshape.
Qed.

(** C2. On a protected route, a request whose [Authorization] header is
    absent (read as the empty string) or is not of the shape
    [Bearer <token>] is answered with 401, and the world is left exactly
    as it was: in particular the trace of calls to the identity provider
    and to the document store has not grown. *)
Theorem RequireAuth_malformed_header (authHeader : string) (keys : Keys)
    (w : World) :
  bearer_shape authHeader = false →
  ∃ message,
    RequireAuth authHeader keys w = (unauthorized message, w)
    ∧ unauthorized message
      = Abort 401 {| H_success := false; H_message := message |}
    ∧ trace (RequireAuth authHeader keys w).2 = trace w.
Proof.
  intros Hshape. unfold RequireAuth.
  destruct (String.eqb authHeader "") eqn:He.
  { eexists. by repeat split. }
  destruct (negb (Nat.eqb (length (strings_Split authHeader " ")) 2)
            || negb (String.eqb (nth 0 (strings_Split authHeader " ") "") "Bearer"))
    eqn:Hcheck.
  { eexists. by repeat split. }
  rewrite (split_check_token _ Hshape Hcheck).
  exists "Invalid or expired token".
  unfold bind, VerifyIDToken, read, ret. cbn.
  destruct (auth_ready w); cbn; by repeat split.
Qed.

Lemma RequireAuth_malformed_header_witness :
  bearer_shape "Basic dXNlcjpwYXNz" = false
  ∧ ∃ message,
      RequireAuth "Basic dXNlcjpwYXNz" ∅
        (mkWorld true ∅ ∅ ∅ [] 0 0 [])
      = (unauthorized message, mkWorld true ∅ ∅ ∅ [] 0 0 [])
      ∧ unauthorized message
        = Abort 401 {| H_success := false; H_message := message |}
      ∧ trace (RequireAuth "Basic dXNlcjpwYXNz" ∅
                 (mkWorld true ∅ ∅ ∅ [] 0 0 [])).2 = [].
Proof.
  split; [reflexivity|].
  apply (RequireAuth_malformed_header "Basic dXNlcjpwYXNz" ∅
           (mkWorld true ∅ ∅ ∅ [] 0 0 [])).
  reflexivity.
Defined.

(** ** Resolution of an identity *)

Lemma strings_Split_no_sep (s : string) :
  has_space s = false → strings_Split s " " = [s].
Proof.
  induction s as [|c s IH]; [done|]. cbn. intros H.
  apply orb_false_iff in H as [Hc Hs]. by rewrite Hc, (IH Hs).
Qed.

Lemma strings_Split_bearer (token : string) :
  has_space token = false →
  strings_Split ("Bearer " +:+ token) " " = ["Bearer"; token].
Proof.
  intros H. cbv [String.append]. cbn. by rewrite (strings_Split_no_sep _ H).
Qed.

(** The provider answers with the record of the subject asked for. *)
Lemma GetUser_UID (uid : string) (w w' : World) (r : UserRecord.t) :
  GetUser uid w = (inl r, w') → UserRecord.UID r = uid.
Proof.
  unfold GetUser, Auth_GetUser, bind, read, call, ret. cbn.
  destruct (auth_ready w); cbn; [|done].
  destruct (String.eqb uid ""); [done|].
  destruct (faults w) as [|[] ?]; cbn; try done;
    destruct (idp_users w !! uid); cbn; intros [= <- _]; done.
Qed.

Lemma set_identity_user (user : User.t) (token : Token.t) (keys : Keys) :
  set_identity user token keys !! "user" = Some (CtxUser user).
Proof.
  unfold set_identity.
  rewrite lookup_insert_ne by done. rewrite lookup_insert_ne by done.
  by rewrite lookup_insert_eq.
Qed.

Lemma set_identity_uid (user : User.t) (token : Token.t) (keys : Keys) :
  set_identity user token keys !! "uid" = Some (CtxString (Token.UID token)).
Proof.
  unfold set_identity.
  rewrite lookup_insert_ne by done. by rewrite lookup_insert_eq.
Qed.

(** C3. When the provider verifies the credential and the user record of
    its subject can be fetched, [RequireAuth] lets the request proceed
    with an identity whose subject is the subject of the verified token,
    whatever the read of the Profile gives; when the Profile is missing
    or unreadable the identity is the one built from the provider's
    record alone, its enrichment fields being zero. *)
Theorem RequireAuth_resolves (idToken : string) (keys : Keys)
    (w w1 w2 : World) (token : Token.t) (userRecord : UserRecord.t) :
  has_space idToken = false →
  VerifyIDToken idToken w = (inl token, w1) →
  GetUser (Token.UID token) w1 = (inl userRecord, w2) →
  ∃ user w3,
    RequireAuth ("Bearer " +:+ idToken) keys w
    = (Next (set_identity user token keys), w3)
    ∧ set_identity user token keys !! "user" = Some (CtxUser user)
    ∧ set_identity user token keys !! "uid" = Some (CtxString (Token.UID token))
    ∧ User.UID user = Token.UID token
    ∧ (profile_unreadable (Token.UID token) w2 = true →
       user = User_of_record userRecord
       ∧ User.Provider user = "" ∧ User.CreatedAt user = 0
       ∧ User.UpdatedAt user = 0 ∧ User.LastLoginAt user = 0).
Proof.
  intros Hsp Hv Hg. unfold RequireAuth.
  rewrite (strings_Split_bearer _ Hsp).
  change (String.eqb ("Bearer " +:+ idToken) "") with false.
  cbn [length nth Nat.eqb negb orb].
  rewrite String_eqb_refl. cbn [negb].
  unfold bind at 1. rewrite Hv. unfold bind at 1. rewrite Hg.
  pose proof (GetUser_UID _ _ _ _ Hg) as Hu.
  unfold bind, Doc_Get, call, read, ret, profile_unreadable, fails. cbn.
  destruct (faults w2) as [|[] fs']; cbn;
    [destruct (coll_get _ _) as [d|] eqn:Ed; cbn;
      [unfold DataTo; cbn; destruct (DataTo_User d) as [e|]; cbn|]
    | | destruct (coll_get _ _) as [d|] eqn:Ed; cbn;
      [unfold DataTo; cbn; destruct (DataTo_User d) as [e|]; cbn|] ];
    (eexists _, _; split; [reflexivity|]; split; [apply set_identity_user|];
     split; [apply set_identity_uid|];
     split; [exact Hu|]; try discriminate; intros _; by repeat split).
Qed.

(** The Profile read fails: the request still proceeds, as [u1]. *)
Lemma RequireAuth_resolves_witness :
  ∃ user w3,
    RequireAuth "Bearer tok1" ∅ (Sample.with_profile [false; false; true])
    = (Next (set_identity user (Token.mk "u1") ∅), w3)
    ∧ set_identity user (Token.mk "u1") ∅ !! "user" = Some (CtxUser user)
    ∧ set_identity user (Token.mk "u1") ∅ !! "uid" = Some (CtxString "u1")
    ∧ User.UID user = "u1"
    ∧ (profile_unreadable "u1"
         (GetUser "u1"
            (VerifyIDToken "tok1" (Sample.with_profile [false; false; true])).2).2
       = true →
       user = User_of_record (UserRecord.mk "u1" "ada@example.com"
                                "Ada Lovelace" "" true)
       ∧ User.Provider user = "" ∧ User.CreatedAt user = 0
       ∧ User.UpdatedAt user = 0 ∧ User.LastLoginAt user = 0).
Proof.
  apply (RequireAuth_resolves "tok1" ∅
           (Sample.with_profile [false; false; true])
           (VerifyIDToken "tok1" (Sample.with_profile [false; false; true])).2
           (GetUser "u1"
              (VerifyIDToken "tok1" (Sample.with_profile [false; false; true])).2).2
           (Token.mk "u1")
           (UserRecord.mk "u1" "ada@example.com" "Ada Lovelace" "" true));
    reflexivity.
Defined.

(** ** The optional entry point *)

(** C7, as stated, fails: with a stored Profile the required path puts
    the enriched identity in the context, whereas [OptionalAuth] never
    reads the Profile and leaves the enrichment fields zero. *)
Lemma OptionalAuth_differs_from_spec :
  ctx_user (resolveOptional_spec "Bearer tok1" ∅ (Sample.with_profile [])).1
  = Some (CtxUser (User.mk "u1" "ada@example.com" "Ada Lovelace" ""
                           "google.com" true 5 6 7))
  ∧ ctx_user (OptionalAuth "Bearer tok1" ∅ (Sample.with_profile [])).1
    = Some (CtxUser (User.mk "u1" "ada@example.com" "Ada Lovelace" ""
                             "" true 0 0 0))
  ∧ OptionalAuth "Bearer tok1" ∅ (Sample.with_profile [])
    ≠ resolveOptional_spec "Bearer tok1" ∅ (Sample.with_profile []).
Proof.
  split; [reflexivity|]. split; [reflexivity|].
  intros H. apply (f_equal (λ r, ctx_user r.1)) in H.
  vm_compute in H. discriminate H.
Qed.

(** C7, amended. [OptionalAuth] parses the header, verifies the
    credential and fetches the user record exactly as [RequireAuth]
    does, and does nothing else: where [RequireAuth] answers with an
    error, [OptionalAuth] lets the request proceed with the context
    unchanged, after the same calls; where [RequireAuth] proceeds with an
    identity, [OptionalAuth] proceeds with that identity without its
    enrichment, and has made the same calls but for the read of the
    Profile. *)
Theorem OptionalAuth_without_enrichment (authHeader : string) (keys : Keys)
    (w : World) :
  match RequireAuth authHeader keys w with
  | (Abort _ _, w') => OptionalAuth authHeader keys w = (Next keys, w')
  | (Next keys', w') =>
      ∃ user token idToken,
        keys' = set_identity user token keys
        ∧ (OptionalAuth authHeader keys w).1
          = Next (set_identity (without_enrichment user) token keys)
        ∧ trace (OptionalAuth authHeader keys w).2
          = (trace w ++ [AuthVerifyIDToken idToken;
                         AuthGetUser (Token.UID token)])%list
        ∧ trace w'
          = (trace (OptionalAuth authHeader keys w).2
               ++ [DocGet "users" (Token.UID token)])%list
        ∧ fs (OptionalAuth authHeader keys w).2 = fs w
  end.
Proof.
  unfold RequireAuth, OptionalAuth.
  destruct (String.eqb authHeader ""); [done|].
  destruct (negb _ || negb _); [done|].
  generalize (nth 1 (strings_Split authHeader " ") ""). intros idToken.
  unfold bind, VerifyIDToken, Auth_VerifyIDToken, GetUser, Auth_GetUser,
    Doc_Get, call, read, ret.
  cbn.
  destruct (auth_ready w) eqn:Hr; cbn; [|done].
  destruct (String.eqb idToken ""); [done|]. cbn.
  destruct (faults w) as [|[] fs1]; cbn; try done.
  all: destruct (idp_tokens w !! idToken) as [uid|]; cbn; [|done].
  all: rewrite Hr; cbn; destruct (String.eqb uid ""); [done|]; cbn.
  all: try destruct fs1 as [|[] fs2]; cbn; try done.
  all: destruct (idp_users w !! uid) as [i|]; cbn; [|done].
  all: try destruct fs2 as [|[] fs3]; cbn.
  all: try (destruct (coll_get _ _) as [d|]; cbn;
            [unfold DataTo; cbn; destruct (DataTo_User d); cbn|]).
  all: eexists _, _, idToken; split; [reflexivity|]; split; [reflexivity|].
  all: rewrite <- app_assoc; by repeat split.
Qed.

(** ** Validation of a registration input *)

(** An input that passes validation has its required fields. *)
Lemma violations_nil (is_email : string → bool) (input : RegistrationInput.t) :
  violations is_email input = [] →
  RegistrationInput.FirstName input ≠ ""
  ∧ RegistrationInput.LastName input ≠ ""
  ∧ RegistrationInput.Email input ≠ ""
  ∧ is_email (RegistrationInput.Email input) = true
  ∧ RegistrationInput.Country input ≠ ""
  ∧ RegistrationInput.TicketType input ≠ "".
Proof.
  unfold violations. intros H.
  repeat (apply app_eq_nil in H as [? H]).
  repeat match goal with
         | H : (if String.eqb ?s "" then _ else _) = [] |- _ =>
             revert H; destruct (String.eqb_spec s ""); intros H;
             [discriminate H|]
         end.
  destruct (is_email _); [|discriminate]. done.
Qed.

Lemma ShouldBindJSON_invalid (is_email : string → bool)
    (input : RegistrationInput.t) :
  violations is_email input ≠ [] →
  ∃ detail, ShouldBindJSON is_email (JSON input) = inr (ErrBind detail).
Proof.
  intros H. unfold ShouldBindJSON.
  destruct (violations is_email input); [done|]. by eexists.
Qed.

Lemma ShouldBindJSON_valid (is_email : string → bool)
    (input : RegistrationInput.t) :
  violations is_email input = [] →
  ShouldBindJSON is_email (JSON input) = inl input.
Proof. intros H. unfold ShouldBindJSON. by rewrite H. Qed.

(** C8. A create or update request of an authenticated subject whose
    input lacks a first name, a last name, a well-formed email, a country
    or a ticket type is answered with 400, and the world is left exactly
    as it was: the store has not been accessed (the trace has not grown)
    and no document has been written or changed. *)
Theorem invalid_input_rejected (is_email : string → bool) (keys : Keys)
    (user : User.t) (input : RegistrationInput.t) (w : World) :
  keys !! "user" = Some (CtxUser user) →
  invalid is_email input →
  (∃ message,
     CreateRegistration is_email keys (JSON input) w = (failure 400 message, w))
  ∧ (∃ message,
       UpdateRegistration is_email keys (JSON input) w = (failure 400 message, w)).
Proof.
  intros Hk Hbad.
  destruct (ShouldBindJSON_invalid is_email input) as [detail Hd].
  { intros Hnil. apply violations_nil in Hnil.
    unfold invalid in Hbad. destruct Hnil as (?&?&?&?&?&?).
    destruct Hbad as [?|[?|[?|[?|[?|?]]]]]; congruence. }
  unfold CreateRegistration, UpdateRegistration. rewrite Hk, Hd.
  split; eexists; reflexivity.
Qed.

(** The scenario of the specification: an empty [firstName]. *)
Lemma invalid_input_rejected_witness :
  (∃ message,
     CreateRegistration Sample.is_email Sample.keys_u1
       (JSON (RegistrationInput.mk "" "Lovelace" "ada@example.com" "" "" ""
                "UK" "" "" "" "standard" []))
       (Sample.fresh [])
     = (failure 400 message, Sample.fresh []))
  ∧ (∃ message,
       UpdateRegistration Sample.is_email Sample.keys_u1
         (JSON (RegistrationInput.mk "" "Lovelace" "ada@example.com" "" "" ""
                  "UK" "" "" "" "standard" []))
         (Sample.fresh [])
       = (failure 400 message, Sample.fresh [])).
Proof.
  apply (invalid_input_rejected Sample.is_email Sample.keys_u1
           (User.mk "u1" "ada@example.com" "Ada Lovelace" "" "" true 0 0 0)).
  - reflexivity.
  - left. reflexivity.
Defined.

(** ** Collections *)

Lemma coll_get_set (id : string) (data : Doc) (c : Collection) :
  coll_get id (coll_set id data c) = Some data.
Proof.
  unfold coll_set. induction c as [|[k d] c IH]; cbn.
  - by rewrite String_eqb_refl.
  - destruct (String.eqb k id) eqn:E; cbn; [by rewrite E|].
    destruct (String.ltb id k); cbn; [by rewrite String_eqb_refl|].
    by rewrite E.
Qed.

Lemma coll_get_put_ne (id id' : string) (f : option Doc → Doc) (c : Collection) :
  id ≠ id' → coll_get id' (coll_put id f c) = coll_get id' c.
Proof.
  intros Hne. induction c as [|[k d] c IH]; cbn.
  - by apply String.eqb_neq in Hne as ->.
  - destruct (String.eqb_spec k id) as [->|Hk]; cbn.
    + by apply String.eqb_neq in Hne as ->.
    + destruct (String.ltb id k); cbn.
      * by apply String.eqb_neq in Hne as ->.
      * by rewrite IH.
Qed.

Lemma coll_where_None (field value : string) (c : Collection) :
  coll_where field value c = None ↔ coll_count field value c = 0%nat.
Proof.
  induction c as [|[k d] c IH]; cbn; [done|].
  destruct (field_is field value d); [split; discriminate|done].
Qed.

Lemma coll_count_put (field value id : string) (f : option Doc → Doc)
    (c : Collection) :
  field_is field value (f None) = false →
  (∀ d, field_is field value (f (Some d)) = field_is field value d) →
  coll_count field value (coll_put id f c) = coll_count field value c.
Proof.
  intros Hnew Hold. induction c as [|[k d] c IH]; cbn.
  - by rewrite Hnew.
  - destruct (String.eqb k id); cbn; [by rewrite Hold|].
    destruct (String.ltb id k); cbn; [by rewrite Hnew|].
    by rewrite IH.
Qed.

Lemma coll_count_add (field value id : string) (data : Doc) (c : Collection) :
  coll_get id c = None →
  coll_count field value (coll_set id data c)
  = if field_is field value data then S (coll_count field value c)
    else coll_count field value c.
Proof.
  unfold coll_set. induction c as [|[k d] c IH]; cbn; [done|].
  destruct (String.eqb k id); [intros [=]|]. intros Hg.
  destruct (String.ltb id k); cbn; [done|].
  rewrite (IH Hg).
  by destruct (field_is field value d), (field_is field value data).
Qed.

Lemma coll_where_add (field value id : string) (data : Doc) (c : Collection) :
  coll_count field value c = 0%nat →
  field_is field value data = true →
  coll_where field value (coll_set id data c) = Some (id, data).
Proof.
  unfold coll_set. intros Hc Hd. induction c as [|[k d] c IH]; cbn in *.
  - by rewrite Hd.
  - destruct (field_is field value d) eqn:Ed; [done|].
    destruct (String.eqb_spec k id) as [->|Hk]; cbn; [by rewrite Hd|].
    destruct (String.ltb id k); cbn; [by rewrite Hd|].
    rewrite Ed. by apply IH.
Qed.

Lemma coll_count_delete (field value id : string) (c : Collection) :
  (coll_count field value (coll_delete id c) ≤ coll_count field value c)%nat.
Proof.
  induction c as [|[k d] c IH]; cbn; [done|].
  destruct (String.eqb k id); cbn; destruct (field_is field value d); lia.
Qed.

Lemma String_ltb_asym (a b : string) :
  String.ltb a b = true → String.eqb a b = false ∧ String.ltb b a = false.
Proof.
  unfold String.ltb. rewrite (String.compare_antisym b a).
  destruct (String.compare a b) eqn:E; try done. intros _. split; [|done].
  apply String.eqb_neq. intros ->.
  pose proof (String.compare_antisym b b) as H. rewrite E in H. discriminate H.
Qed.

(** In an ordered collection, a write to the document that a query
    found happens in place. *)
Lemma coll_put_found (field value id : string) (d : Doc)
    (f : option Doc → Doc) (c : Collection) :
  ordered c = true →
  coll_where field value c = Some (id, d) →
  field_is field value (f (Some d)) = true →
  coll_get id c = Some d
  ∧ coll_get id (coll_put id f c) = Some (f (Some d))
  ∧ coll_where field value (coll_put id f c) = Some (id, f (Some d))
  ∧ (coll_put id f c).*1 = c.*1.
Proof.
  intros Ho Hw Hf. induction c as [|[k d0] c IH]; cbn in *; [done|].
  apply andb_true_iff in Ho as [Hk Ho].
  destruct (field_is field value d0) eqn:E0.
  - injection Hw as -> ->. rewrite String_eqb_refl. cbn.
    by rewrite String_eqb_refl, Hf.
  - destruct (IH Ho Hw) as (Hg & Hg' & Hw' & Hids).
    assert (String.ltb k id = true) as Hlt.
    { clear -Hk Hg. induction c as [|[k' d'] c IHc]; cbn in *; [done|].
      apply andb_true_iff in Hk as [H1 H2].
      destruct (String.eqb_spec k' id) as [->|]; [done|]. by apply IHc. }
    destruct (String_ltb_asym _ _ Hlt) as [He Hl].
    rewrite He, Hl. cbn. rewrite He, E0, Hids. done.
Qed.

(** ** Running the calls of the SDKs *)

Lemma bind_run {A B} (m : M A) (k : A → M B) (w : World) :
  bind m k w = k (m w).1 (m w).2.
Proof. unfold bind. by destruct (m w). Qed.

Lemma time_Now_run (w : World) : time_Now w = (clock w, tick w).
Proof. reflexivity. Qed.

Lemma next_id_run (w : World) : next_id w = (uniqueID (id_seed w), bump w).
Proof. reflexivity. Qed.

Lemma call_run (c : Call) (w : World) : call c w = (fails 0 w, after c w).
Proof. unfold call, fails, after. cbn. by destruct (faults w). Qed.

Lemma fails_after (n : nat) (c : Call) (w : World) :
  fails n (after c w) = fails (S n) w.
Proof. unfold fails, after. cbn. by destruct (faults w), n. Qed.

Lemma fails_tick (n : nat) (w : World) : fails n (tick w) = fails n w.
Proof. reflexivity. Qed.

Lemma fails_bump (n : nat) (w : World) : fails n (bump w) = fails n w.
Proof. reflexivity. Qed.

Lemma fails_set_collection (n : nat) (name : string) (c : Collection)
    (w : World) :
  fails n (set_collection name c w) = fails n w.
Proof. reflexivity. Qed.

Lemma clock_after (c : Call) (w : World) : clock (after c w) = clock w.
Proof. reflexivity. Qed.

Lemma clock_tick (w : World) : clock (tick w) = clock w + 1.
Proof. reflexivity. Qed.

Lemma clock_bump (w : World) : clock (bump w) = clock w.
Proof. reflexivity. Qed.

Lemma clock_set_collection (name : string) (c : Collection) (w : World) :
  clock (set_collection name c w) = clock w.
Proof. reflexivity. Qed.

Lemma id_seed_after (c : Call) (w : World) : id_seed (after c w) = id_seed w.
Proof. reflexivity. Qed.

Lemma id_seed_tick (w : World) : id_seed (tick w) = id_seed w.
Proof. reflexivity. Qed.

Lemma collection_after (name : string) (c : Call) (w : World) :
  collection name (after c w) = collection name w.
Proof. reflexivity. Qed.

Lemma collection_tick (name : string) (w : World) :
  collection name (tick w) = collection name w.
Proof. reflexivity. Qed.

Lemma collection_bump (name : string) (w : World) :
  collection name (bump w) = collection name w.
Proof. reflexivity. Qed.

Lemma trace_after (c : Call) (w : World) : trace (after c w) = (trace w ++ [c])%list.
Proof. reflexivity. Qed.

Lemma trace_tick (w : World) : trace (tick w) = trace w.
Proof. reflexivity. Qed.

Lemma trace_bump (w : World) : trace (bump w) = trace w.
Proof. reflexivity. Qed.

Lemma trace_set_collection (name : string) (c : Collection) (w : World) :
  trace (set_collection name c w) = trace w.
Proof. reflexivity. Qed.

Create Rewrite HintDb world.

#[export] Hint Rewrite fails_after fails_tick fails_bump fails_set_collection
  clock_after clock_tick clock_bump clock_set_collection
  id_seed_after id_seed_tick
  collection_after collection_tick collection_bump collection_set_collection
  trace_after trace_tick trace_bump trace_set_collection : world.

Lemma Where_Limit1_Next_run (coll field value : string) (w : World) :
  Where_Limit1_Next coll field value w
  = (if fails 0 w then inr ErrUnavailable
     else match coll_where field value (collection coll w) with
          | Some (id, d) => inl {| snap_ID := id; snap_data := Some d |}
          | None => inr ErrDone
          end,
     after (QueryDocuments coll (Some (field, value))) w).
Proof.
  unfold Where_Limit1_Next. rewrite bind_run, call_run. cbn [fst snd].
  by destruct (fails 0 w).
Qed.

Lemma Doc_Get_run (coll id : string) (w : World) :
  Doc_Get coll id w
  = (if fails 0 w
     then ({| snap_ID := id; snap_data := None |}, Some ErrUnavailable)
     else match coll_get id (collection coll w) with
          | Some d => ({| snap_ID := id; snap_data := Some d |}, None)
          | None => ({| snap_ID := id; snap_data := None |}, Some ErrNotFound)
          end,
     after (DocGet coll id) w).
Proof.
  unfold Doc_Get. rewrite bind_run, call_run. cbn [fst snd].
  by destruct (fails 0 w).
Qed.

Lemma Doc_Set_run (coll id : string) (data : Doc) (merge : bool) (w : World) :
  Doc_Set coll id data merge w
  = if fails 0 w then (Some ErrUnavailable, after (DocSet coll id merge) w)
    else (None,
          set_collection coll
            ((if merge then coll_merge else coll_set) id data (collection coll w))
            (after (DocSet coll id merge) w)).
Proof.
  unfold Doc_Set. rewrite bind_run, call_run. cbn [fst snd].
  by destruct (fails 0 w).
Qed.

Lemma Doc_Delete_run (coll id : string) (w : World) :
  Doc_Delete coll id w
  = if fails 0 w then (Some ErrUnavailable, after (DocDelete coll id) w)
    else (None,
          set_collection coll (coll_delete id (collection coll w))
            (after (DocDelete coll id) w)).
Proof.
  unfold Doc_Delete. rewrite bind_run, call_run. cbn [fst snd].
  by destruct (fails 0 w).
Qed.

Lemma Coll_Add_run (coll : string) (data : Doc) (w : World) :
  Coll_Add coll data w
  = if fails 0 w then (inr ErrUnavailable, after (CollAdd coll) (bump w))
    else match coll_get (uniqueID (id_seed w)) (collection coll w) with
         | Some _ => (inr ErrAlreadyExists, after (CollAdd coll) (bump w))
         | None =>
             (inl (uniqueID (id_seed w)),
              set_collection coll
                (coll_set (uniqueID (id_seed w)) data (collection coll w))
                (after (CollAdd coll) (bump w)))
         end.
Proof.
  unfold Coll_Add. rewrite bind_run, next_id_run. cbn [fst snd].
  rewrite bind_run, call_run. cbn [fst snd].
  change (fails 0 (bump w)) with (fails 0 w).
  destruct (fails 0 w); [done|].
  rewrite bind_run. cbn [read fst snd].
  change (collection coll (after (CollAdd coll) (bump w))) with (collection coll w).
  by destruct (coll_get _ _).
Qed.

Lemma getUserRegistration_run (userID : string) (w : World) :
  getUserRegistration userID w
  = (lookup_registration userID w,
     after (QueryDocuments "registrations" (Some ("userId", userID))) w).
Proof.
  unfold getUserRegistration, lookup_registration.
  rewrite bind_run, Where_Limit1_Next_run. cbn [fst snd].
  destruct (fails 0 w); [done|].
  destruct (coll_where _ _ _) as [[id d]|]; [|done].
  unfold DataTo. cbn. by destruct (DataTo_Registration d).
Qed.

Lemma uniqueID_nonempty (seed : nat) : uniqueID seed ≠ "".
Proof. unfold uniqueID. cbn [uniqueID_chars]. discriminate. Qed.

(** ** Creating a registration *)

Lemma field_is_userId (r : Registration.t) (uid : string) :
  field_is "userId" uid (Registration_fields r)
  = String.eqb (Registration.UserID r) uid.
Proof. reflexivity. Qed.

(** [CreateRegistration] when the lookup returns a record. *)
Lemma CreateRegistration_conflicts (is_email : string → bool) (keys : Keys)
    (user : User.t) (input : RegistrationInput.t) (w : World)
    (existingReg : Registration.t) :
  keys !! "user" = Some (CtxUser user) →
  violations is_email input = [] →
  lookup_registration (User.UID user) w = inl existingReg →
  CreateRegistration is_email keys (JSON input) w
  = ((StatusConflict,
      RegistrationResponse.mk false
        "User already has a registration. Please update instead."
        (Some existingReg) []),
     after (QueryDocuments "registrations" (Some ("userId", User.UID user))) w).
Proof.
  intros Hk Hv Hl.
  unfold CreateRegistration. rewrite Hk, (ShouldBindJSON_valid _ _ Hv).
  rewrite bind_run, getUserRegistration_run. cbn [fst snd].
  by rewrite Hl.
Qed.

(** [CreateRegistration] when the lookup returns an error, whichever it
    is, and the store accepts the new document. *)
Lemma CreateRegistration_inserts (is_email : string → bool) (keys : Keys)
    (user : User.t) (input : RegistrationInput.t) (w : World) (e : Error) :
  keys !! "user" = Some (CtxUser user) →
  violations is_email input = [] →
  lookup_registration (User.UID user) w = inr e →
  fails 1 w = false →
  coll_get (uniqueID (id_seed w)) (collection "registrations" w) = None →
  CreateRegistration is_email keys (JSON input) w
  = ((StatusCreated,
      RegistrationResponse.mk true "Registration created successfully"
        (Some (Registration.with_ID (uniqueID (id_seed w))
                 (new_registration (User.UID user) input (clock w)))) []),
     stored (User.UID user)
       (Registration.with_ID (uniqueID (id_seed w))
          (new_registration (User.UID user) input (clock w))) w).
Proof.
  intros Hk Hv Hl Hf Hfresh.
  unfold CreateRegistration. rewrite Hk, (ShouldBindJSON_valid _ _ Hv).
  rewrite bind_run, getUserRegistration_run. cbn [fst snd]. rewrite Hl.
  rewrite bind_run, time_Now_run. cbn [fst snd].
  rewrite bind_run, Coll_Add_run. autorewrite with world.
  by rewrite Hf, Hfresh.
Qed.

Lemma lookup_registration_None (uid : string) (w : World) :
  coll_where "userId" uid (collection "registrations" w) = None →
  ∃ e, lookup_registration uid w = inr e.
Proof.
  intros H. unfold lookup_registration. rewrite H.
  destruct (fails 0 w); by eexists.
Qed.

(** Once a registration has been stored for a subject that had none, a
    lookup of the subject that reaches the store finds it. *)
Lemma lookup_registration_stored (uid : string) (r : Registration.t)
    (w w' : World) :
  coll_where "userId" uid (collection "registrations" w) = None →
  Registration.UserID r = uid →
  collection "registrations" w'
  = coll_set (Registration.ID r) (Registration_fields r)
      (collection "registrations" w) →
  fails 0 w' = false →
  lookup_registration uid w' = inl r.
Proof.
  intros Hnone Hu Hc Hf. unfold lookup_registration. rewrite Hf, Hc.
  rewrite coll_where_add.
  - rewrite DataTo_Registration_fields. by destruct r.
  - by apply coll_where_None.
  - rewrite field_is_userId, Hu. apply String_eqb_refl.
Qed.

(** C4. For an authenticated subject without a registration and an input
    that passes validation, when the store accepts the new document (the
    insertion, which is the second call of the handler, does not fail
    and the generated id is unused), [CreateRegistration] answers 201
    with a registration whose payment status is "pending", whose three
    timestamps are the time read at creation, whose owner is the subject
    and whose id is the non-empty id that the store generated; this
    registration is what the store now holds under that id, and what a
    lookup of the subject returns. *)
Theorem CreateRegistration_created (is_email : string → bool) (keys : Keys)
    (user : User.t) (input : RegistrationInput.t) (w : World) :
  keys !! "user" = Some (CtxUser user) →
  violations is_email input = [] →
  coll_where "userId" (User.UID user) (collection "registrations" w) = None →
  fails 1 w = false →
  coll_get (uniqueID (id_seed w)) (collection "registrations" w) = None →
  ∃ r w',
    CreateRegistration is_email keys (JSON input) w
    = ((201%nat,
        RegistrationResponse.mk true "Registration created successfully"
          (Some r) []), w')
    ∧ r = Registration.with_ID (uniqueID (id_seed w))
            (new_registration (User.UID user) input (clock w))
    ∧ Registration.PaymentStatus r = "pending"
    ∧ Registration.RegistrationDate r = clock w
    ∧ Registration.CreatedAt r = clock w
    ∧ Registration.UpdatedAt r = clock w
    ∧ Registration.UserID r = User.UID user
    ∧ Registration.ID r ≠ ""
    ∧ coll_get (Registration.ID r) (collection "registrations" w')
      = Some (Registration_fields r)
    ∧ (fails 0 w' = false → (getUserRegistration (User.UID user) w').1 = inl r).
Proof.
  intros Hk Hv Hnone Hf Hfresh.
  destruct (lookup_registration_None _ _ Hnone) as [e He].
  rewrite (CreateRegistration_inserts _ _ _ _ _ _ Hk Hv He Hf Hfresh).
  eexists _, _. split; [reflexivity|].
  split; [reflexivity|]. repeat (split; [reflexivity|]).
  split; [apply uniqueID_nonempty|].
  unfold stored. autorewrite with world.
  split; [apply coll_get_set|].
  intros Hf'. rewrite getUserRegistration_run. cbn [fst].
  apply (lookup_registration_stored _ _ w); [exact Hnone|reflexivity| |];
    by autorewrite with world.
Qed.

(** The scenario of the specification: Ada registers. *)
Lemma CreateRegistration_created_witness :
  ∃ r w',
    CreateRegistration Sample.is_email Sample.keys_u1 (JSON Sample.ada)
      (Sample.fresh [])
    = ((201%nat,
        RegistrationResponse.mk true "Registration created successfully"
          (Some r) []), w')
    ∧ r = Registration.with_ID (uniqueID 0)
            (new_registration "u1" Sample.ada 1000)
    ∧ Registration.PaymentStatus r = "pending"
    ∧ Registration.RegistrationDate r = 1000
    ∧ Registration.CreatedAt r = 1000
    ∧ Registration.UpdatedAt r = 1000
    ∧ Registration.UserID r = "u1"
    ∧ Registration.ID r ≠ ""
    ∧ coll_get (Registration.ID r) (collection "registrations" w')
      = Some (Registration_fields r)
    ∧ (fails 0 w' = false → (getUserRegistration "u1" w').1 = inl r).
Proof.
  apply (CreateRegistration_created Sample.is_email Sample.keys_u1 Sample.u1
           Sample.ada (Sample.fresh []));
    reflexivity.
Defined.

(** C9. When the lookup that [CreateRegistration] makes to check for an
    existing registration returns an error, whatever the error (the
    store cannot be reached, the document found does not decode), the
    error is dropped and the handler goes on to insert: the insertion is
    the next call made, and when the store accepts it the answer is 201
    and the subject has one more registration document than before, so
    two if it had one. *)
Theorem CreateRegistration_ignores_failed_check (is_email : string → bool)
    (keys : Keys) (user : User.t) (input : RegistrationInput.t) (w : World)
    (e : Error) :
  keys !! "user" = Some (CtxUser user) →
  violations is_email input = [] →
  (getUserRegistration (User.UID user) w).1 = inr e →
  e ≠ ErrDone →
  trace (CreateRegistration is_email keys (JSON input) w).2
  = (trace w ++ [QueryDocuments "registrations" (Some ("userId", User.UID user));
                 CollAdd "registrations"])%list
  ∧ (fails 1 w = false →
     coll_get (uniqueID (id_seed w)) (collection "registrations" w) = None →
     ∃ r w',
       CreateRegistration is_email keys (JSON input) w
       = ((201%nat,
           RegistrationResponse.mk true "Registration created successfully"
             (Some r) []), w')
       ∧ collection "registrations" w'
         = coll_set (Registration.ID r) (Registration_fields r)
             (collection "registrations" w)
       ∧ coll_count "userId" (User.UID user) (collection "registrations" w')
         = S (coll_count "userId" (User.UID user) (collection "registrations" w))).
Proof.
  intros Hk Hv He _. rewrite getUserRegistration_run in He. cbn [fst] in He.
  split.
  - unfold CreateRegistration. rewrite Hk, (ShouldBindJSON_valid _ _ Hv).
    rewrite bind_run, getUserRegistration_run. cbn [fst snd]. rewrite He.
    rewrite bind_run, time_Now_run. cbn [fst snd].
    rewrite bind_run, Coll_Add_run. autorewrite with world.
    destruct (fails 1 w); [|destruct (coll_get _ _)]; cbn [fst snd ret];
      unfold stored; autorewrite with world; by rewrite <- app_assoc.
  - intros Hf Hfresh.
    rewrite (CreateRegistration_inserts _ _ _ _ _ _ Hk Hv He Hf Hfresh).
    eexists _, _. split; [reflexivity|].
    unfold stored. autorewrite with world. split; [reflexivity|].
    rewrite coll_count_add by done. rewrite field_is_userId. cbn.
    by rewrite String_eqb_refl.
Qed.

(** Ada is registered, the store cannot be reached for the check: she
    is registered a second time. *)
Lemma CreateRegistration_ignores_failed_check_witness :
  coll_count "userId" "u1"
    (collection "registrations" (Sample.with_registration [true])) = 1%nat
  ∧ ∃ r w',
      CreateRegistration Sample.is_email Sample.keys_u1 (JSON Sample.ada)
        (Sample.with_registration [true])
      = ((201%nat,
          RegistrationResponse.mk true "Registration created successfully"
            (Some r) []), w')
      ∧ collection "registrations" w'
        = coll_set (Registration.ID r) (Registration_fields r)
            (collection "registrations" (Sample.with_registration [true]))
      ∧ coll_count "userId" "u1" (collection "registrations" w') = 2%nat.
Proof.
  split; [reflexivity|].
  apply (CreateRegistration_ignores_failed_check Sample.is_email
           Sample.keys_u1 Sample.u1 Sample.ada
           (Sample.with_registration [true]) ErrUnavailable);
    done.
Defined.

(** ** Updating a registration *)

(** [UpdateRegistration] when the record is found and the write succeeds. *)
Lemma UpdateRegistration_run (is_email : string → bool) (keys : Keys)
    (user : User.t) (input : RegistrationInput.t) (w : World)
    (id : string) (d : Doc) (r0 : Registration.t) :
  keys !! "user" = Some (CtxUser user) →
  violations is_email input = [] →
  fails 0 w = false →
  coll_where "userId" (User.UID user) (collection "registrations" w)
  = Some (id, d) →
  DataTo_Registration d = Some r0 →
  fails 1 w = false →
  UpdateRegistration is_email keys (JSON input) w
  = ((StatusOK,
      RegistrationResponse.mk true "Registration updated successfully"
        (match lookup_registration (User.UID user)
                 (written (User.UID user) id input w) with
         | inl r => Some r
         | inr _ => None
         end) []),
     after (QueryDocuments "registrations" (Some ("userId", User.UID user)))
       (written (User.UID user) id input w)).
Proof.
  intros Hk Hv Hf0 Hw Hd Hf1.
  unfold UpdateRegistration. rewrite Hk, (ShouldBindJSON_valid _ _ Hv).
  rewrite bind_run, getUserRegistration_run. cbn [fst snd].
  unfold lookup_registration at 1. rewrite Hf0, Hw, Hd.
  rewrite bind_run, time_Now_run. cbn [fst snd].
  rewrite bind_run, Doc_Set_run. autorewrite with world. rewrite Hf1.
  cbn [fst snd]. rewrite bind_run, getUserRegistration_run. cbn [fst snd].
  reflexivity.
Qed.

Lemma updates_lookup_None (input : RegistrationInput.t) (now : Z) (k : string) :
  k ∉ written_fields → updates input now !! k = None.
Proof.
  intros Hk. unfold updates. apply not_elem_of_list_to_map_1. exact Hk.
Qed.

Lemma dec_string_union_r (u d : Doc) (k : string) :
  u !! k = None → dec_string (u ∪ d) k = dec_string d k.
Proof. intros H. unfold dec_string. by rewrite lookup_union_r. Qed.

Lemma dec_time_union_r (u d : Doc) (k : string) :
  u !! k = None → dec_time (u ∪ d) k = dec_time d k.
Proof. intros H. unfold dec_time. by rewrite lookup_union_r. Qed.

Lemma dec_string_union_l (u d : Doc) (k : string) (v : Value) :
  u !! k = Some v → dec_string (u ∪ d) k = dec_string u k.
Proof.
  intros H. unfold dec_string. by rewrite (lookup_union_Some_l _ _ _ _ H), H.
Qed.

Lemma dec_time_union_l (u d : Doc) (k : string) (v : Value) :
  u !! k = Some v → dec_time (u ∪ d) k = dec_time u k.
Proof.
  intros H. unfold dec_time. by rewrite (lookup_union_Some_l _ _ _ _ H), H.
Qed.

Lemma dec_strings_union_l (u d : Doc) (k : string) (v : Value) :
  u !! k = Some v → dec_strings (u ∪ d) k = dec_strings u k.
Proof.
  intros H. unfold dec_strings. by rewrite (lookup_union_Some_l _ _ _ _ H), H.
Qed.

Lemma DataTo_Registration_merge (input : RegistrationInput.t) (now : Z)
    (d : Doc) (r0 : Registration.t) :
  DataTo_Registration d = Some r0 →
  DataTo_Registration (updates input now ∪ d) = Some (updated "" r0 input now).
Proof.
  unfold DataTo_Registration. intros H.
  rewrite !(dec_string_union_r _ d "userId"),
    !(dec_string_union_r _ d "paymentStatus"),
    !(dec_time_union_r _ d "registrationDate"),
    !(dec_time_union_r _ d "createdAt") by reflexivity.
  erewrite !dec_string_union_l, !dec_time_union_l, !dec_strings_union_l
    by reflexivity.
  rewrite (dec_enc_strings _ "sessionsOfInterest"
             (RegistrationInput.SessionsOfInt input)) by reflexivity.
  repeat match type of H with
         | context [dec_string d ?k] =>
             destruct (dec_string d k); cbn in H; [|discriminate H]
         | context [dec_strings d ?k] =>
             destruct (dec_strings d k); cbn in H; [|discriminate H]
         | context [dec_time d ?k] =>
             destruct (dec_time d k); cbn in H; [|discriminate H]
         end.
  injection H as <-. reflexivity.
Qed.

Lemma coll_where_field_is (field value id : string) (d : Doc) (c : Collection) :
  coll_where field value c = Some (id, d) → field_is field value d = true.
Proof.
  induction c as [|[k d0] c IH]; cbn; [done|].
  destruct (field_is field value d0) eqn:E; [|done]. by intros [= -> ->].
Qed.

Lemma field_is_union_r (field value : string) (u d : Doc) :
  u !! field = None → field_is field value (u ∪ d) = field_is field value d.
Proof. intros H. unfold field_is. by rewrite lookup_union_r. Qed.

Lemma GetMyRegistration_run (keys : Keys) (user : User.t) (w : World) :
  keys !! "user" = Some (CtxUser user) →
  GetMyRegistration keys w
  = (match lookup_registration (User.UID user) w with
     | inl registration =>
         (StatusOK,
          RegistrationResponse.mk true "Registration retrieved successfully"
            (Some registration) [])
     | inr _ => failure StatusNotFound "Registration not found"
     end,
     after (QueryDocuments "registrations" (Some ("userId", User.UID user))) w).
Proof.
  intros Hk. unfold GetMyRegistration. rewrite Hk.
  rewrite bind_run, getUserRegistration_run. cbn [fst snd].
  by destruct (lookup_registration _ _).
Qed.

(** C5. For an authenticated subject whose registration is found and
    decodes, in a collection that is in the order of the store, and an
    input that passes validation, when the write succeeds
    [UpdateRegistration] answers 200 and the document of the
    subject, which keeps its id, holds every field of the update with
    [updatedAt] the time read by the handler, and is otherwise
    unchanged: every field that is not among the written ones, in
    particular [paymentStatus], [registrationDate] and [createdAt], is
    as before; the ids of the collection and every other document are
    unchanged; and a later lookup by the subject returns the record with
    the fields of the input, the new [updatedAt], and the id, owner,
    payment status, registration date and creation date it had. *)
Theorem UpdateRegistration_merges (is_email : string → bool) (keys : Keys)
    (user : User.t) (input : RegistrationInput.t) (w : World)
    (id : string) (d : Doc) (r0 : Registration.t) :
  keys !! "user" = Some (CtxUser user) →
  violations is_email input = [] →
  ordered (collection "registrations" w) = true →
  fails 0 w = false →
  coll_where "userId" (User.UID user) (collection "registrations" w)
  = Some (id, d) →
  DataTo_Registration d = Some r0 →
  fails 1 w = false →
  ∃ reply w' d',
    UpdateRegistration is_email keys (JSON input) w = (reply, w')
    ∧ reply.1 = 200%nat
    ∧ coll_get id (collection "registrations" w') = Some d'
    ∧ (∀ k v, updates input (clock w) !! k = Some v → d' !! k = Some v)
    ∧ d' !! "updatedAt" = Some (VTime (clock w))
    ∧ (∀ k, k ∉ written_fields → d' !! k = d !! k)
    ∧ d' !! "paymentStatus" = d !! "paymentStatus"
    ∧ d' !! "registrationDate" = d !! "registrationDate"
    ∧ d' !! "createdAt" = d !! "createdAt"
    ∧ (collection "registrations" w').*1 = (collection "registrations" w).*1
    ∧ (∀ id', id' ≠ id →
         coll_get id' (collection "registrations" w')
         = coll_get id' (collection "registrations" w))
    ∧ (fails 3 w = false →
       (GetMyRegistration keys w').1
       = (200%nat,
          RegistrationResponse.mk true "Registration retrieved successfully"
            (Some (updated id r0 input (clock w))) [])).
Proof.
  intros Hk Hv Ho Hf0 Hw Hd Hf1.
  rewrite (UpdateRegistration_run _ _ _ _ _ _ _ _ Hk Hv Hf0 Hw Hd Hf1).
  pose proof (coll_where_field_is _ _ _ _ _ Hw) as Hfi.
  destruct (coll_put_found "userId" (User.UID user) id d
              (λ old, updates input (clock w) ∪ default ∅ old)
              (collection "registrations" w) Ho Hw) as (Hg & Hg' & Hw' & Hids).
  { cbn. by rewrite field_is_union_r. }
  cbv beta in Hg', Hw'. change (default ∅ (Some d)) with d in Hg', Hw'.
  eexists _, _, (updates input (clock w) ∪ d).
  split; [reflexivity|]. split; [reflexivity|].
  unfold written. autorewrite with world. unfold coll_merge.
  split; [exact Hg'|].
  split; [intros k v Hkv; by apply lookup_union_Some_l|].
  split; [by apply lookup_union_Some_l|].
  split; [intros k Hn; by rewrite lookup_union_r by by apply updates_lookup_None|].
  do 3 (split; [by rewrite lookup_union_r by reflexivity|]).
  split; [exact Hids|].
  split; [intros id' Hne; by apply coll_get_put_ne|].
  intros Hf3. rewrite (GetMyRegistration_run _ _ _ Hk). cbn [fst].
  unfold lookup_registration. autorewrite with world.
  rewrite Hf3. fold (coll_merge id (updates input (clock w))). unfold coll_merge.
  rewrite Hw'. by rewrite (DataTo_Registration_merge _ _ _ _ Hd).
Qed.

(** The round trip of the specification: Ada, registered at time 900,
    sets her city at time 1000. *)
Lemma UpdateRegistration_merges_witness :
  ∃ reply w' d',
    UpdateRegistration Sample.is_email Sample.keys_u1 (JSON Sample.ada_london)
      (Sample.with_registration []) = (reply, w')
    ∧ reply.1 = 200%nat
    ∧ coll_get "reg1" (collection "registrations" w') = Some d'
    ∧ (∀ k v, updates Sample.ada_london 1000 !! k = Some v → d' !! k = Some v)
    ∧ d' !! "updatedAt" = Some (VTime 1000)
    ∧ (∀ k, k ∉ written_fields →
         d' !! k = Registration_fields Sample.ada_registered !! k)
    ∧ d' !! "paymentStatus" = Some (VString "pending")
    ∧ d' !! "registrationDate" = Some (VTime 900)
    ∧ d' !! "createdAt" = Some (VTime 900)
    ∧ (collection "registrations" w').*1 = ["reg1"]
    ∧ (∀ id', id' ≠ "reg1" →
         coll_get id' (collection "registrations" w')
         = coll_get id' (collection "registrations" (Sample.with_registration [])))
    ∧ (fails 3 (Sample.with_registration []) = false →
       (GetMyRegistration Sample.keys_u1 w').1
       = (200%nat,
          RegistrationResponse.mk true "Registration retrieved successfully"
            (Some (updated "reg1" (Registration.with_ID "" Sample.ada_registered)
                     Sample.ada_london 1000)) [])).
Proof.
  apply (UpdateRegistration_merges Sample.is_email Sample.keys_u1 Sample.u1
           Sample.ada_london (Sample.with_registration []) "reg1"
           (Registration_fields Sample.ada_registered)
           (Registration.with_ID "" Sample.ada_registered));
    reflexivity.
Defined.

(** C10. Once the record has been found and the merge-write has
    succeeded, [UpdateRegistration] answers 200 with the message
    "Registration updated successfully" whatever the second lookup
    gives: the answer carries the record that this lookup returns, and
    no record at all when it fails, as it does when the store cannot be
    reached for it. *)
Theorem UpdateRegistration_reread_fails (is_email : string → bool) (keys : Keys)
    (user : User.t) (input : RegistrationInput.t) (w : World)
    (id : string) (d : Doc) (r0 : Registration.t) :
  keys !! "user" = Some (CtxUser user) →
  violations is_email input = [] →
  fails 0 w = false →
  coll_where "userId" (User.UID user) (collection "registrations" w)
  = Some (id, d) →
  DataTo_Registration d = Some r0 →
  fails 1 w = false →
  ∃ updatedReg w',
    UpdateRegistration is_email keys (JSON input) w
    = ((200%nat,
        RegistrationResponse.mk true "Registration updated successfully"
          updatedReg []), w')
    ∧ collection "registrations" w'
      = coll_merge id (updates input (clock w)) (collection "registrations" w)
    ∧ updatedReg
      = match (getUserRegistration (User.UID user)
                 (written (User.UID user) id input w)).1 with
        | inl r => Some r
        | inr _ => None
        end
    ∧ (fails 2 w = true → updatedReg = None).
Proof.
  intros Hk Hv Hf0 Hw Hd Hf1.
  rewrite (UpdateRegistration_run _ _ _ _ _ _ _ _ Hk Hv Hf0 Hw Hd Hf1).
  eexists _, _. split; [reflexivity|].
  split; [unfold written; by autorewrite with world|].
  split; [by rewrite getUserRegistration_run|].
  intros Hf2. unfold lookup_registration, written. autorewrite with world.
  by rewrite Hf2.
Qed.

(** Ada updates her registration; the store cannot be reached for the
    second lookup. *)
Lemma UpdateRegistration_reread_fails_witness :
  ∃ updatedReg w',
    UpdateRegistration Sample.is_email Sample.keys_u1 (JSON Sample.ada_london)
      (Sample.with_registration [false; false; true])
    = ((200%nat,
        RegistrationResponse.mk true "Registration updated successfully"
          updatedReg []), w')
    ∧ collection "registrations" w'
      = coll_merge "reg1" (updates Sample.ada_london 1000)
          (collection "registrations"
             (Sample.with_registration [false; false; true]))
    ∧ updatedReg
      = match (getUserRegistration "u1"
                 (written "u1" "reg1" Sample.ada_london
                    (Sample.with_registration [false; false; true]))).1 with
        | inl r => Some r
        | inr _ => None
        end
    ∧ (fails 2 (Sample.with_registration [false; false; true]) = true →
       updatedReg = None).
Proof.
  apply (UpdateRegistration_reread_fails Sample.is_email Sample.keys_u1
           Sample.u1 Sample.ada_london
           (Sample.with_registration [false; false; true]) "reg1"
           (Registration_fields Sample.ada_registered)
           (Registration.with_ID "" Sample.ada_registered));
    reflexivity.
Defined.

(** ** At most one registration per subject *)

Lemma lookup_registration_Done (uid : string) (w : World) :
  lookup_registration uid w = inr ErrDone → registrations_of uid w = 0%nat.
Proof.
  unfold lookup_registration, registrations_of.
  destruct (fails 0 w); [done|].
  destruct (coll_where _ _ _) as [[id d]|] eqn:E.
  - by destruct (DataTo_Registration d).
  - intros _. by apply coll_where_None.
Qed.

Lemma CreateRegistration_preserves (is_email : string → bool) (keys : Keys)
    (body : Body) (w : World) (subject : string) :
  lookup_fails keys w = false →
  (registrations_of subject w ≤ 1)%nat →
  (registrations_of subject (CreateRegistration is_email keys body w).2 ≤ 1)%nat.
Proof.
  unfold lookup_fails, CreateRegistration.
  destruct (keys !! "user") as [[user| |]|]; try done.
  destruct (ShouldBindJSON is_email body) as [input|]; [|done].
  rewrite bind_run, getUserRegistration_run. cbn [fst snd].
  destruct (lookup_registration (User.UID user) w) as [r|e] eqn:El; [done|].
  destruct e; try done. intros _ Hle.
  rewrite bind_run, time_Now_run. cbn [fst snd].
  rewrite bind_run, Coll_Add_run. autorewrite with world.
  destruct (fails 1 w); [done|].
  destruct (coll_get _ _) eqn:Eg; [done|]. cbn [fst snd ret].
  unfold registrations_of in *. autorewrite with world.
  rewrite coll_count_add by done. rewrite field_is_userId. cbn.
  destruct (String.eqb_spec (User.UID user) subject) as [<-|]; [|done].
  apply lookup_registration_Done in El. unfold registrations_of in El. lia.
Qed.

Lemma UpdateRegistration_preserves (is_email : string → bool) (keys : Keys)
    (body : Body) (w : World) (subject : string) :
  registrations_of subject (UpdateRegistration is_email keys body w).2
  = registrations_of subject w.
Proof.
  unfold UpdateRegistration.
  destruct (keys !! "user") as [[user| |]|]; try done.
  destruct (ShouldBindJSON is_email body) as [input|]; [|done].
  rewrite bind_run, getUserRegistration_run. cbn [fst snd].
  destruct (lookup_registration (User.UID user) w) as [r|e]; [|done].
  rewrite bind_run, time_Now_run. cbn [fst snd].
  rewrite bind_run, Doc_Set_run. autorewrite with world.
  destruct (fails 1 w); [done|]. cbn [fst snd].
  rewrite bind_run, getUserRegistration_run. cbn [fst snd ret].
  unfold registrations_of. autorewrite with world.
  apply coll_count_put.
  - by rewrite field_is_union_r.
  - intros d. by rewrite field_is_union_r.
Qed.

Lemma DeleteRegistration_preserves (keys : Keys) (w : World) (subject : string) :
  (registrations_of subject (DeleteRegistration keys w).2
   ≤ registrations_of subject w)%nat.
Proof.
  unfold DeleteRegistration.
  destruct (keys !! "user") as [[user| |]|]; try done.
  rewrite bind_run, getUserRegistration_run. cbn [fst snd].
  destruct (lookup_registration (User.UID user) w) as [r|e]; [|done].
  rewrite bind_run, Doc_Delete_run. autorewrite with world.
  destruct (fails 1 w); [done|]. cbn [fst snd ret].
  unfold registrations_of. autorewrite with world.
  apply coll_count_delete.
Qed.

Lemma GetMyRegistration_preserves (keys : Keys) (w : World) (subject : string) :
  registrations_of subject (GetMyRegistration keys w).2
  = registrations_of subject w.
Proof.
  unfold GetMyRegistration.
  destruct (keys !! "user") as [[user| |]|]; try done.
  rewrite bind_run, getUserRegistration_run. cbn [fst snd].
  by destruct (lookup_registration (User.UID user) w).
Qed.

Lemma GetAllRegistrations_preserves (w : World) (subject : string) :
  registrations_of subject (GetAllRegistrations w).2
  = registrations_of subject w.
Proof.
  unfold GetAllRegistrations, Documents_All.
  rewrite !bind_run, call_run. cbn [fst snd].
  by destruct (fails 0 w).
Qed.

(** C1, as stated, fails: when the store cannot be reached for the check
    of the second [create], the answer is 201 again, not 409, and the
    subject has two registration documents. *)
Lemma second_create_after_failed_check :
  (CreateRegistration Sample.is_email Sample.keys_u1 (JSON Sample.ada)
     (Sample.fresh [false; false; true])).1.1 = 201%nat
  ∧ registrations_of "u1"
      (CreateRegistration Sample.is_email Sample.keys_u1 (JSON Sample.ada)
         (Sample.fresh [false; false; true])).2 = 1%nat
  ∧ (CreateRegistration Sample.is_email Sample.keys_u1 (JSON Sample.ada)
       (CreateRegistration Sample.is_email Sample.keys_u1 (JSON Sample.ada)
          (Sample.fresh [false; false; true])).2).1.1 = 201%nat
  ∧ (CreateRegistration Sample.is_email Sample.keys_u1 (JSON Sample.ada)
       (CreateRegistration Sample.is_email Sample.keys_u1 (JSON Sample.ada)
          (Sample.fresh [false; false; true])).2).1.1 ≠ 409%nat
  ∧ registrations_of "u1"
      (CreateRegistration Sample.is_email Sample.keys_u1 (JSON Sample.ada)
         (CreateRegistration Sample.is_email Sample.keys_u1 (JSON Sample.ada)
            (Sample.fresh [false; false; true])).2).2 = 2%nat.
Proof. vm_compute. by repeat split. Qed.

(** C1, amended. Without concurrency, and as long as the check that
    [create] makes for an existing registration does not fail, no
    operation of the registration store gives a subject a second
    registration document; and for a subject without a registration, a
    [create] that the store accepts followed by a [create] whose check
    reaches the store is answered 201 and then 409, the 409 carrying the
    record that the 201 carried, and the second call writes nothing: the
    subject has exactly one registration document. *)
Theorem at_most_one_registration (is_email : string → bool) (keys : Keys)
    (w : World) :
  (∀ op subject,
     check_fails keys op w = false →
     (registrations_of subject w ≤ 1)%nat →
     (registrations_of subject (perform is_email keys op w).2 ≤ 1)%nat)
  ∧ (∀ user input1 input2,
       keys !! "user" = Some (CtxUser user) →
       violations is_email input1 = [] →
       violations is_email input2 = [] →
       registrations_of (User.UID user) w = 0%nat →
       fails 1 w = false →
       coll_get (uniqueID (id_seed w)) (collection "registrations" w) = None →
       fails 2 w = false →
       ∃ r w1 w2,
         CreateRegistration is_email keys (JSON input1) w
         = ((201%nat,
             RegistrationResponse.mk true "Registration created successfully"
               (Some r) []), w1)
         ∧ CreateRegistration is_email keys (JSON input2) w1
           = ((409%nat,
               RegistrationResponse.mk false
                 "User already has a registration. Please update instead."
                 (Some r) []), w2)
         ∧ collection "registrations" w2 = collection "registrations" w1
         ∧ registrations_of (User.UID user) w2 = 1%nat).
Proof.
  split.
  - intros [body| |body| |] subject Hc Hle; cbn [perform check_fails] in *.
    + by apply CreateRegistration_preserves.
    + by rewrite GetMyRegistration_preserves.
    + by rewrite UpdateRegistration_preserves.
    + pose proof (DeleteRegistration_preserves keys w subject). lia.
    + by rewrite GetAllRegistrations_preserves.
  - intros user input1 input2 Hk Hv1 Hv2 H0 Hf1 Hfresh Hf2.
    pose proof H0 as Hnone. apply coll_where_None in Hnone.
    destruct (lookup_registration_None _ _ Hnone) as [e He].
    rewrite (CreateRegistration_inserts _ _ _ _ _ _ Hk Hv1 He Hf1 Hfresh).
    set (r := Registration.with_ID _ _).
    assert (lookup_registration (User.UID user) (stored (User.UID user) r w)
            = inl r) as Hl.
    { apply (lookup_registration_stored _ _ w); [exact Hnone|reflexivity| |];
        unfold stored; by autorewrite with world. }
    eexists r, _, _. split; [reflexivity|].
    rewrite (CreateRegistration_conflicts _ _ _ _ _ _ Hk Hv2 Hl).
    split; [reflexivity|]. split; [by autorewrite with world|].
    unfold registrations_of, stored in *. autorewrite with world.
    rewrite coll_count_add by done. rewrite field_is_userId. cbn.
    by rewrite String_eqb_refl, H0.
Qed.

(** Ada registers, then tries again. *)
Lemma at_most_one_registration_witness :
  ∃ r w1 w2,
    CreateRegistration Sample.is_email Sample.keys_u1 (JSON Sample.ada)
      (Sample.fresh [])
    = ((201%nat,
        RegistrationResponse.mk true "Registration created successfully"
          (Some r) []), w1)
    ∧ CreateRegistration Sample.is_email Sample.keys_u1 (JSON Sample.ada_london) w1
      = ((409%nat,
          RegistrationResponse.mk false
            "User already has a registration. Please update instead."
            (Some r) []), w2)
    ∧ collection "registrations" w2 = collection "registrations" w1
    ∧ registrations_of "u1" w2 = 1%nat.
Proof.
  apply (proj2 (at_most_one_registration Sample.is_email Sample.keys_u1
                  (Sample.fresh []))
           Sample.u1 Sample.ada Sample.ada_london);
    reflexivity.
Defined.

(** ** The Profile written at login *)

Lemma User_fields_lookup_None (u : User.t) (k : string) :
  k ∉ profile_fields → User_fields u !! k = None.
Proof.
  intros Hk. unfold User_fields. apply not_elem_of_list_to_map_1. exact Hk.
Qed.

(** C6, as stated, fails in its last part: a login of a subject whose
    Profile holds a field that the login does not write ([role]), and a
    field that the login never sets ([emailVerified]), leaves a Profile
    without the first and with the second reset. The write replaces the
    document; it does not merge into it. *)
Lemma GoogleLogin_overwrites_profile :
  ∃ old new,
    profile_of "u1" (Sample.with_profile []) = Some old
    ∧ (GoogleLogin (LoginJSON "tok1") (Sample.with_profile [])).1.1 = 200%nat
    ∧ profile_of "u1" (GoogleLogin (LoginJSON "tok1") (Sample.with_profile [])).2
      = Some new
    ∧ old !! "role" = Some (VString "speaker")
    ∧ new !! "role" = None
    ∧ old !! "emailVerified" = Some (VBool true)
    ∧ new !! "emailVerified" = Some (VBool false)
    ∧ ¬ merge_write_spec profile_fields old new.
Proof.
  eexists _, _. split; [reflexivity|]. split; [reflexivity|].
  split; [reflexivity|]. split; [reflexivity|]. split; [reflexivity|].
  split; [reflexivity|]. split; [reflexivity|].
  intros H. specialize (H "role"). 
  assert ("role" ∉ profile_fields) as Hn.
  { unfold profile_fields. rewrite !not_elem_of_cons.
    repeat split; try done. apply not_elem_of_nil. }
  specialize (H Hn). vm_compute in H. discriminate H.
Qed.

(** C6, amended. [saveUserToFirestore] leaves the record it was given
    with two timestamps set, and writes that record. When the read of
    the Profile fails or finds no document, [createdAt] is the time read
    then, and [updatedAt] the time read next. When the Profile exists
    and decodes, [createdAt] is the stored one and [updatedAt] is the
    time read. When the write succeeds, the Profile document is exactly
    the nine fields of that record: the document is replaced, nothing of
    the previous one is kept but the [createdAt] carried over. *)
Theorem saveUserToFirestore_upsert (user : User.t) (w : World) :
  ∃ user' err w',
    saveUserToFirestore user w = ((user', err), w')
    ∧ user' = set_UpdatedAt (User.UpdatedAt user')
                (set_CreatedAt (User.CreatedAt user') user)
    ∧ (fails 0 w = true ∨ profile_of (User.UID user) w = None →
       User.CreatedAt user' = clock w ∧ User.UpdatedAt user' = clock w + 1)
    ∧ (∀ d existing,
         fails 0 w = false →
         profile_of (User.UID user) w = Some d →
         DataTo_User d = Some existing →
         User.CreatedAt user' = User.CreatedAt existing
         ∧ User.UpdatedAt user' = clock w)
    ∧ (fails 1 w = false →
       err = None
       ∧ profile_of (User.UID user) w' = Some (User_fields user')
       ∧ ∀ k, k ∉ profile_fields → User_fields user' !! k = None).
Proof.
  unfold profile_of.
  assert (∀ k, k ∉ profile_fields → ∀ u, User_fields u !! k = None) as Hnone.
  { intros k Hk u. by apply User_fields_lookup_None. }
  unfold saveUserToFirestore, bind. rewrite Doc_Get_run.
  destruct (fails 0 w) eqn:Hf0; cbv beta iota zeta.
  - cbn [orb Exists snap_data negb]. rewrite time_Now_run.
    unfold ret at 1. cbv beta iota. rewrite time_Now_run. cbv beta iota.
    rewrite Doc_Set_run. autorewrite with world.
    destruct (fails 1 w) eqn:Hf1; unfold ret; eexists _, _, _;
      (split; [reflexivity|]); (split; [reflexivity|]);
      (split; [intros _; by split|]); (split; [by intros|]); try done.
    intros _. split; [done|]. autorewrite with world.
    split; [apply coll_get_set|]. intros k Hk. by apply Hnone.
  - destruct (coll_get (User.UID user) (collection "users" w)) as [d|] eqn:Eg.
    + cbn [orb Exists snap_data negb]. unfold DataTo. cbn [snap_data].
      destruct (DataTo_User d) as [existing|] eqn:Ed.
      * unfold ret at 1. cbv beta iota. rewrite time_Now_run. cbv beta iota.
        rewrite Doc_Set_run. autorewrite with world.
        destruct (fails 1 w) eqn:Hf1; unfold ret; eexists _, _, _;
          (split; [reflexivity|]); (split; [reflexivity|]);
          (split; [by intros [|]|]);
          (split; [intros ? ? _ [= <-] He; rewrite Ed in He;
                   injection He as <-; by split|]); try done.
        intros _. split; [done|]. autorewrite with world.
        split; [apply coll_get_set|]. intros k Hk. by apply Hnone.
      * unfold ret at 1. cbv beta iota. rewrite time_Now_run. cbv beta iota.
        rewrite Doc_Set_run. autorewrite with world.
        destruct (fails 1 w) eqn:Hf1; unfold ret; eexists _, _, _;
          (split; [reflexivity|]); (split; [reflexivity|]);
          (split; [by intros [|]|]);
          (split; [intros ? ? _ [= <-] He; congruence|]); try done.
        intros _. split; [done|]. autorewrite with world.
        split; [apply coll_get_set|]. intros k Hk. by apply Hnone.
    + cbn [orb Exists snap_data negb]. rewrite time_Now_run.
      unfold ret at 1. cbv beta iota. rewrite time_Now_run. cbv beta iota.
      rewrite Doc_Set_run. autorewrite with world.
      destruct (fails 1 w) eqn:Hf1; unfold ret; eexists _, _, _;
        (split; [reflexivity|]); (split; [reflexivity|]);
        (split; [intros _; by split|]); (split; [by intros|]); try done.
      intros _. split; [done|]. autorewrite with world.
      split; [apply coll_get_set|]. intros k Hk. by apply Hnone.
Qed.

(** A later login of [u1], whose Profile was created at time 5. *)
Lemma saveUserToFirestore_upsert_witness :
  ∃ user' err w',
    saveUserToFirestore
      (User.mk "u1" "ada@example.com" "Ada Lovelace" "" "google.com" false
               0 0 999)
      (Sample.with_profile [])
    = ((user', err), w')
    ∧ User.CreatedAt user' = 5
    ∧ User.UpdatedAt user' = 1000
    ∧ err = None
    ∧ profile_of "u1" w' = Some (User_fields user').
Proof.
  destruct (saveUserToFirestore_upsert
              (User.mk "u1" "ada@example.com" "Ada Lovelace" "" "google.com"
                       false 0 0 999)
              (Sample.with_profile []))
    as (user' & err & w' & Hrun & _ & _ & Hkept & Hwritten).
  exists user', err, w'.
  destruct (Hkept Sample.profile
              (User.mk "u1" "ada@example.com" "Ada Lovelace" "" "google.com"
                       true 5 6 7)
              eq_refl eq_refl eq_refl) as [Hc Hu].
  destruct (Hwritten eq_refl) as (He & Hp & _).
  repeat split; assumption.
Defined.

(** * Further properties *)

(** ** Reading a registration *)

Lemma fs_after (c : Call) (w : World) : fs (after c w) = fs w.
Proof. reflexivity. Qed.

Lemma lookup_registration_after (uid : string) (c : Call) (w : World) :
  fails 1 w = fails 0 w →
  lookup_registration uid (after c w) = lookup_registration uid w.
Proof.
  intros Hf. unfold lookup_registration. autorewrite with world.
  by rewrite Hf.
Qed.

(** X1. [GetMyRegistration] writes nothing, and asked twice in a row it
    answers twice the same when the store is as reachable the second
    time as the first. *)
Theorem GetMyRegistration_repeatable (keys : Keys) (w : World) :
  fails 1 w = fails 0 w →
  fs (GetMyRegistration keys w).2 = fs w
  ∧ (GetMyRegistration keys (GetMyRegistration keys w).2).1
    = (GetMyRegistration keys w).1.
Proof.
  intros Hf. destruct (keys !! "user") as [[user| |]|] eqn:Hk.
  - rewrite !(GetMyRegistration_run _ _ _ Hk).
    cbn [fst snd]. split; [reflexivity|].
    by rewrite lookup_registration_after.
  - unfold GetMyRegistration. by rewrite Hk.
  - unfold GetMyRegistration. by rewrite Hk.
  - unfold GetMyRegistration. by rewrite Hk.
Qed.

Lemma GetMyRegistration_repeatable_witness :
  fs (GetMyRegistration Sample.keys_u1 (Sample.with_registration [])).2
  = fs (Sample.with_registration [])
  ∧ (GetMyRegistration Sample.keys_u1
       (GetMyRegistration Sample.keys_u1 (Sample.with_registration [])).2).1
    = (GetMyRegistration Sample.keys_u1 (Sample.with_registration [])).1.
Proof.
  apply (GetMyRegistration_repeatable Sample.keys_u1
           (Sample.with_registration [])).
  reflexivity.
Defined.

(** X2. When the lookup of the subject's registration returns an error,
    be it that there is no record or that the store cannot be reached,
    [GetMyRegistration], [UpdateRegistration] and [DeleteRegistration]
    all answer 404 after that one call: nothing is written, and in
    particular an update does not create the document. *)
Theorem not_found_without_write (is_email : string → bool) (keys : Keys)
    (user : User.t) (input : RegistrationInput.t) (w : World) (e : Error) :
  keys !! "user" = Some (CtxUser user) →
  violations is_email input = [] →
  (getUserRegistration (User.UID user) w).1 = inr e →
  GetMyRegistration keys w
  = (not_found "Registration not found", after (lookup_call (User.UID user)) w)
  ∧ UpdateRegistration is_email keys (JSON input) w
    = (not_found "Registration not found. Please create one first.",
       after (lookup_call (User.UID user)) w)
  ∧ DeleteRegistration keys w
    = (not_found "Registration not found", after (lookup_call (User.UID user)) w)
  ∧ fs (after (lookup_call (User.UID user)) w) = fs w
  ∧ trace (after (lookup_call (User.UID user)) w)
    = (trace w ++ [lookup_call (User.UID user)])%list.
Proof.
  intros Hk Hv He. rewrite getUserRegistration_run in He. cbn [fst] in He.
  split; [|split; [|split; [|by split]]].
  - rewrite (GetMyRegistration_run _ _ _ Hk). by rewrite He.
  - unfold UpdateRegistration. rewrite Hk, (ShouldBindJSON_valid _ _ Hv).
    rewrite bind_run, getUserRegistration_run. cbn [fst snd]. by rewrite He.
  - unfold DeleteRegistration. rewrite Hk.
    rewrite bind_run, getUserRegistration_run. cbn [fst snd]. by rewrite He.
Qed.

Lemma not_found_without_write_witness :
  GetMyRegistration Sample.keys_u1 (Sample.fresh [true])
  = (not_found "Registration not found",
     after (lookup_call "u1") (Sample.fresh [true]))
  ∧ UpdateRegistration Sample.is_email Sample.keys_u1 (JSON Sample.ada)
      (Sample.fresh [true])
    = (not_found "Registration not found. Please create one first.",
       after (lookup_call "u1") (Sample.fresh [true]))
  ∧ DeleteRegistration Sample.keys_u1 (Sample.fresh [true])
    = (not_found "Registration not found",
       after (lookup_call "u1") (Sample.fresh [true]))
  ∧ fs (after (lookup_call "u1") (Sample.fresh [true])) = fs (Sample.fresh [true])
  ∧ trace (after (lookup_call "u1") (Sample.fresh [true]))
    = (trace (Sample.fresh [true]) ++ [lookup_call "u1"])%list.
Proof.
  apply (not_found_without_write Sample.is_email Sample.keys_u1 Sample.u1
           Sample.ada (Sample.fresh [true]) ErrUnavailable);
    reflexivity.
Defined.

(** ** Deleting a registration *)

Lemma coll_get_delete_eq (id : string) (c : Collection) :
  coll_get id (coll_delete id c) = None.
Proof.
  induction c as [|[k d] c IH]; cbn; [done|].
  destruct (String.eqb k id) eqn:E; cbn; [done|]. by rewrite E.
Qed.

Lemma coll_get_delete_ne (id id' : string) (c : Collection) :
  id' ≠ id → coll_get id' (coll_delete id c) = coll_get id' c.
Proof.
  intros Hne. induction c as [|[k d] c IH]; cbn; [done|].
  destruct (String.eqb_spec k id) as [->|Hk]; cbn.
  - apply not_eq_sym, String.eqb_neq in Hne. by rewrite Hne.
  - by rewrite IH.
Qed.

Lemma coll_count_delete_found (field value id : string) (d : Doc)
    (c : Collection) :
  coll_where field value c = Some (id, d) →
  (coll_count field value (coll_delete id c) < coll_count field value c)%nat.
Proof.
  induction c as [|[k d0] c IH]; cbn; [done|].
  destruct (field_is field value d0) eqn:E0.
  - intros [= -> ->]. rewrite String_eqb_refl.
    pose proof (coll_count_delete field value id c). lia.
  - intros Hw. specialize (IH Hw).
    destruct (String.eqb k id); cbn; [done|]. by rewrite E0.
Qed.

(** [DeleteRegistration] when the record is found and the deletion
    succeeds. *)
Lemma DeleteRegistration_run (keys : Keys) (user : User.t) (w : World)
    (r : Registration.t) :
  keys !! "user" = Some (CtxUser user) →
  lookup_registration (User.UID user) w = inl r →
  fails 1 w = false →
  DeleteRegistration keys w
  = ((StatusOK,
      RegistrationResponse.mk true "Registration deleted successfully" None []),
     deleted (User.UID user) (Registration.ID r) w).
Proof.
  intros Hk Hl Hf. unfold DeleteRegistration. rewrite Hk.
  rewrite bind_run, getUserRegistration_run. cbn [fst snd]. rewrite Hl.
  rewrite bind_run, Doc_Delete_run. autorewrite with world. by rewrite Hf.
Qed.

Lemma lookup_registration_found (uid id : string) (d : Doc)
    (r0 : Registration.t) (w : World) :
  fails 0 w = false →
  coll_where "userId" uid (collection "registrations" w) = Some (id, d) →
  DataTo_Registration d = Some r0 →
  lookup_registration uid w = inl (Registration.with_ID id r0).
Proof. intros Hf Hw Hd. unfold lookup_registration. by rewrite Hf, Hw, Hd. Qed.

(** X3. When the registration of the subject is found and the deletion
    succeeds, [DeleteRegistration] answers 200, the document found is
    gone, every other document is as before, and the subject has fewer
    registration documents; a subject that had one has none, and a later
    [GetMyRegistration] that reaches the store answers 404. *)
Theorem DeleteRegistration_removes (keys : Keys) (user : User.t) (w : World)
    (id : string) (d : Doc) (r0 : Registration.t) :
  keys !! "user" = Some (CtxUser user) →
  fails 0 w = false →
  coll_where "userId" (User.UID user) (collection "registrations" w)
  = Some (id, d) →
  DataTo_Registration d = Some r0 →
  fails 1 w = false →
  ∃ w',
    DeleteRegistration keys w
    = ((200%nat,
        RegistrationResponse.mk true "Registration deleted successfully"
          None []), w')
    ∧ coll_get id (collection "registrations" w') = None
    ∧ (∀ id', id' ≠ id →
         coll_get id' (collection "registrations" w')
         = coll_get id' (collection "registrations" w))
    ∧ (registrations_of (User.UID user) w'
       < registrations_of (User.UID user) w)%nat
    ∧ (registrations_of (User.UID user) w = 1%nat →
       fails 2 w = false →
       (GetMyRegistration keys w').1 = not_found "Registration not found").
Proof.
  intros Hk Hf0 Hw Hd Hf1.
  rewrite (DeleteRegistration_run _ _ _ _ Hk
             (lookup_registration_found _ _ _ _ _ Hf0 Hw Hd) Hf1).
  eexists. split; [reflexivity|]. cbn [Registration.ID Registration.with_ID].
  unfold deleted, registrations_of. autorewrite with world.
  split; [apply coll_get_delete_eq|].
  split; [intros id' Hne; by apply coll_get_delete_ne|].
  pose proof (coll_count_delete_found _ _ _ _ _ Hw) as Hlt.
  split; [exact Hlt|].
  intros H1 Hf2. rewrite (GetMyRegistration_run _ _ _ Hk). cbn [fst].
  unfold lookup_registration. autorewrite with world. rewrite Hf2.
  assert (coll_where "userId" (User.UID user)
            (coll_delete id (collection "registrations" w)) = None) as ->.
  { apply coll_where_None. lia. }
  reflexivity.
Qed.

Lemma DeleteRegistration_removes_witness :
  ∃ w',
    DeleteRegistration Sample.keys_u1 (Sample.with_registration [])
    = ((200%nat,
        RegistrationResponse.mk true "Registration deleted successfully"
          None []), w')
    ∧ coll_get "reg1" (collection "registrations" w') = None
    ∧ (∀ id', id' ≠ "reg1" →
         coll_get id' (collection "registrations" w')
         = coll_get id' (collection "registrations" (Sample.with_registration [])))
    ∧ (registrations_of "u1" w'
       < registrations_of "u1" (Sample.with_registration []))%nat
    ∧ (registrations_of "u1" (Sample.with_registration []) = 1%nat →
       fails 2 (Sample.with_registration []) = false →
       (GetMyRegistration Sample.keys_u1 w').1
       = not_found "Registration not found").
Proof.
  apply (DeleteRegistration_removes Sample.keys_u1 Sample.u1
           (Sample.with_registration []) "reg1"
           (Registration_fields Sample.ada_registered)
           (Registration.with_ID "" Sample.ada_registered));
    reflexivity.
Defined.

(** X4. After the deletion of its only registration the subject can
    register again: a [CreateRegistration] that follows, and that the
    store accepts, is answered 201, and the subject has one registration
    document, under the newly generated id. *)
Theorem create_after_delete (is_email : string → bool) (keys : Keys)
    (user : User.t) (input : RegistrationInput.t) (w : World)
    (id : string) (d : Doc) (r0 : Registration.t) :
  keys !! "user" = Some (CtxUser user) →
  violations is_email input = [] →
  fails 0 w = false →
  coll_where "userId" (User.UID user) (collection "registrations" w)
  = Some (id, d) →
  DataTo_Registration d = Some r0 →
  registrations_of (User.UID user) w = 1%nat →
  fails 1 w = false →
  fails 3 w = false →
  coll_get (uniqueID (id_seed w))
    (coll_delete id (collection "registrations" w)) = None →
  ∃ r w',
    CreateRegistration is_email keys (JSON input) (DeleteRegistration keys w).2
    = ((201%nat,
        RegistrationResponse.mk true "Registration created successfully"
          (Some r) []), w')
    ∧ Registration.ID r = uniqueID (id_seed w)
    ∧ Registration.UserID r = User.UID user
    ∧ coll_get (Registration.ID r) (collection "registrations" w')
      = Some (Registration_fields r)
    ∧ registrations_of (User.UID user) w' = 1%nat.
Proof.
  intros Hk Hv Hf0 Hw Hd H1 Hf1 Hf3 Hfresh.
  rewrite (DeleteRegistration_run _ _ _ _ Hk
             (lookup_registration_found _ _ _ _ _ Hf0 Hw Hd) Hf1).
  cbn [snd Registration.ID Registration.with_ID].
  pose proof (coll_count_delete_found _ _ _ _ _ Hw) as Hlt.
  assert (coll_where "userId" (User.UID user)
            (collection "registrations" (deleted (User.UID user) id w)) = None)
    as Hnone.
  { unfold deleted. autorewrite with world. apply coll_where_None.
    unfold registrations_of in H1. lia. }
  destruct (lookup_registration_None _ _ Hnone) as [e He].
  rewrite (CreateRegistration_inserts _ _ _ _ _ e Hk Hv He).
  - eexists _, _. split; [reflexivity|]. split; [reflexivity|].
    split; [reflexivity|]. unfold stored, registrations_of.
    autorewrite with world. split; [apply coll_get_set|].
    rewrite coll_count_add.
    + rewrite field_is_userId. cbn. rewrite String_eqb_refl.
      apply coll_where_None in Hnone. by rewrite Hnone.
    + unfold deleted. autorewrite with world. exact Hfresh.
  - unfold deleted. by autorewrite with world.
  - unfold deleted. autorewrite with world. exact Hfresh.
Qed.

Lemma create_after_delete_witness :
  ∃ r w',
    CreateRegistration Sample.is_email Sample.keys_u1 (JSON Sample.ada_london)
      (DeleteRegistration Sample.keys_u1 (Sample.with_registration [])).2
    = ((201%nat,
        RegistrationResponse.mk true "Registration created successfully"
          (Some r) []), w')
    ∧ Registration.ID r = uniqueID 0
    ∧ Registration.UserID r = "u1"
    ∧ coll_get (Registration.ID r) (collection "registrations" w')
      = Some (Registration_fields r)
    ∧ registrations_of "u1" w' = 1%nat.
Proof.
  apply (create_after_delete Sample.is_email Sample.keys_u1 Sample.u1
           Sample.ada_london (Sample.with_registration []) "reg1"
           (Registration_fields Sample.ada_registered)
           (Registration.with_ID "" Sample.ada_registered));
    reflexivity.
Defined.

(** ** Writes that fail, requests without an identity *)

(** X5. When the write to the store fails, each writing handler answers
    500 and stops there: [CreateRegistration] after the insertion,
    [UpdateRegistration] after the merge-write, without the second
    lookup, [DeleteRegistration] after the deletion; the store is as it
    was. *)
Theorem failed_write_reported (is_email : string → bool) (keys : Keys)
    (user : User.t) (input : RegistrationInput.t) (w : World) :
  keys !! "user" = Some (CtxUser user) →
  violations is_email input = [] →
  fails 1 w = true →
  (∀ e, (getUserRegistration (User.UID user) w).1 = inr e →
     ∃ message w',
       CreateRegistration is_email keys (JSON input) w
       = (failure 500 message, w')
       ∧ fs w' = fs w
       ∧ trace w' = (trace w ++ [lookup_call (User.UID user);
                                 CollAdd "registrations"])%list)
  ∧ (∀ r, (getUserRegistration (User.UID user) w).1 = inl r →
       (∃ message w',
          UpdateRegistration is_email keys (JSON input) w
          = (failure 500 message, w')
          ∧ fs w' = fs w
          ∧ trace w'
            = (trace w ++ [lookup_call (User.UID user);
                           DocSet "registrations" (Registration.ID r) true])%list)
       ∧ (∃ message w',
            DeleteRegistration keys w = (failure 500 message, w')
            ∧ fs w' = fs w
            ∧ trace w'
              = (trace w ++ [lookup_call (User.UID user);
                             DocDelete "registrations" (Registration.ID r)])%list)).
Proof.
  intros Hk Hv Hf. rewrite getUserRegistration_run. cbn [fst]. split.
  - intros e He. unfold CreateRegistration.
    rewrite Hk, (ShouldBindJSON_valid _ _ Hv).
    rewrite bind_run, getUserRegistration_run. cbn [fst snd]. rewrite He.
    rewrite bind_run, time_Now_run. cbn [fst snd].
    rewrite bind_run, Coll_Add_run. autorewrite with world. rewrite Hf.
    cbn [fst snd ret]. eexists _, _. split; [reflexivity|].
    split; [reflexivity|]. autorewrite with world. by rewrite <- app_assoc.
  - intros r Hr. split.
    + unfold UpdateRegistration. rewrite Hk, (ShouldBindJSON_valid _ _ Hv).
      rewrite bind_run, getUserRegistration_run. cbn [fst snd]. rewrite Hr.
      rewrite bind_run, time_Now_run. cbn [fst snd].
      rewrite bind_run, Doc_Set_run. autorewrite with world. rewrite Hf.
      cbn [fst snd ret]. eexists _, _. split; [reflexivity|].
      split; [reflexivity|]. autorewrite with world. by rewrite <- app_assoc.
    + unfold DeleteRegistration. rewrite Hk.
      rewrite bind_run, getUserRegistration_run. cbn [fst snd]. rewrite Hr.
      rewrite bind_run, Doc_Delete_run. autorewrite with world. rewrite Hf.
      cbn [fst snd ret]. eexists _, _. split; [reflexivity|].
      split; [reflexivity|]. autorewrite with world. by rewrite <- app_assoc.
Qed.

Lemma failed_write_reported_witness :
  ∃ message w',
    UpdateRegistration Sample.is_email Sample.keys_u1 (JSON Sample.ada_london)
      (Sample.with_registration [false; true])
    = (failure 500 message, w')
    ∧ fs w' = fs (Sample.with_registration [false; true])
    ∧ trace w'
      = (trace (Sample.with_registration [false; true])
           ++ [lookup_call "u1"; DocSet "registrations" "reg1" true])%list.
Proof.
  apply (proj1 (proj2 (failed_write_reported Sample.is_email Sample.keys_u1
                         Sample.u1 Sample.ada_london
                         (Sample.with_registration [false; true])
                         eq_refl eq_refl eq_refl)
                  Sample.ada_registered eq_refl)).
Defined.

(** X6. A handler that reads the user from the context and finds none
    answers 401, and one that finds something that is not a user answers
    500; in both cases nothing else happens: no call is made and the
    world is as it was. *)
Theorem no_user_in_context (is_email : string → bool) (keys : Keys)
    (body : Body) (w : World) :
  (∀ user, keys !! "user" ≠ Some (CtxUser user)) →
  ∃ status message,
    (status = 401%nat ∧ message = "User not authenticated"
       ∧ keys !! "user" = None
     ∨ status = 500%nat ∧ message = "Failed to retrieve user information"
       ∧ is_Some (keys !! "user"))
    ∧ CreateRegistration is_email keys body w = (failure status message, w)
    ∧ GetMyRegistration keys w = (failure status message, w)
    ∧ UpdateRegistration is_email keys body w = (failure status message, w)
    ∧ DeleteRegistration keys w = (failure status message, w)
    ∧ GetCurrentUser keys = (status, AuthResponse.mk false message None "").
Proof.
  intros Hno.
  unfold CreateRegistration, GetMyRegistration, UpdateRegistration,
    DeleteRegistration, GetCurrentUser.
  destruct (keys !! "user") as [[user|s|t]|] eqn:Hk.
  - by destruct (Hno user).
  - exists 500%nat, "Failed to retrieve user information".
    split; [right; by eauto|]. by repeat split.
  - exists 500%nat, "Failed to retrieve user information".
    split; [right; by eauto|]. by repeat split.
  - exists 401%nat, "User not authenticated".
    split; [left; by eauto|]. by repeat split.
Qed.

Lemma no_user_in_context_witness :
  ∃ status message,
    (status = 401%nat ∧ message = "User not authenticated"
       ∧ (∅ : Keys) !! "user" = None
     ∨ status = 500%nat ∧ message = "Failed to retrieve user information"
       ∧ is_Some ((∅ : Keys) !! "user"))
    ∧ CreateRegistration Sample.is_email ∅ (JSON Sample.ada) (Sample.fresh [])
      = (failure status message, Sample.fresh [])
    ∧ GetMyRegistration ∅ (Sample.fresh [])
      = (failure status message, Sample.fresh [])
    ∧ UpdateRegistration Sample.is_email ∅ (JSON Sample.ada) (Sample.fresh [])
      = (failure status message, Sample.fresh [])
    ∧ DeleteRegistration ∅ (Sample.fresh [])
      = (failure status message, Sample.fresh [])
    ∧ GetCurrentUser ∅ = (status, AuthResponse.mk false message None "").
Proof.
  apply (no_user_in_context Sample.is_email ∅ (JSON Sample.ada)
           (Sample.fresh [])).
  intros user. rewrite lookup_empty. discriminate.
Defined.

(** ** Listing the registrations *)

Lemma coll_get_elem_of (id : string) (d : Doc) (c : Collection) :
  coll_get id c = Some d → (id, d) ∈ c.
Proof.
  induction c as [|[k d0] c IH]; cbn; [done|].
  destruct (String.eqb_spec k id) as [->|Hk].
  - intros [= ->]. apply list_elem_of_here.
  - intros Hg. apply list_elem_of_further. by apply IH.
Qed.

(** [GetAllRegistrations] when the store is reached. *)
Lemma GetAllRegistrations_run (w : World) :
  fails 0 w = false →
  GetAllRegistrations w
  = ((StatusOK,
      RegistrationResponse.mk true "Registrations retrieved successfully" None
        (omap (λ p, Registration.with_ID p.1 <$> DataTo_Registration p.2)
              (collection "registrations" w))),
     after (QueryDocuments "registrations" None) w).
Proof.
  intros Hf. unfold GetAllRegistrations, Documents_All.
  rewrite !bind_run, call_run. cbn [fst snd]. rewrite Hf.
  rewrite bind_run. cbn [read ret fst snd]. do 3 f_equal.
  autorewrite with world. generalize (collection "registrations" w).
  intros c. induction c as [|[k d] c IH]; [done|].
  cbn. unfold decode_listed at 1, DataTo. cbn.
  destruct (DataTo_Registration d); cbn; by rewrite IH.
Qed.

(** X7. When the store is reached, [GetAllRegistrations] answers 200
    with exactly the registrations that decode: a record is listed if
    and only if it is the decoding of a stored document, with the id of
    that document as its [ID]; a document that does not decode is left
    out without any error, so the list is at most as long as the
    collection. Nothing is written. When the store is not reached the
    answer is 500. *)
Theorem GetAllRegistrations_lists (w : World) :
  (fails 0 w = false →
   ∃ registrations,
     (GetAllRegistrations w).1
     = (200%nat,
        RegistrationResponse.mk true "Registrations retrieved successfully"
          None registrations)
     ∧ (∀ r, r ∈ registrations ↔
             ∃ id d r0, (id, d) ∈ collection "registrations" w
                        ∧ DataTo_Registration d = Some r0
                        ∧ r = Registration.with_ID id r0)
     ∧ (length registrations ≤ length (collection "registrations" w))%nat)
  ∧ (fails 0 w = true →
     ∃ message, (GetAllRegistrations w).1 = failure 500 message)
  ∧ fs (GetAllRegistrations w).2 = fs w.
Proof.
  split; [|split].
  - intros Hf. rewrite (GetAllRegistrations_run _ Hf). cbn [fst].
    eexists. split; [reflexivity|]. split.
    + intros r. rewrite list_elem_of_omap. split.
      * intros [[id d] [Hin Hr]]. cbn in Hr.
        destruct (DataTo_Registration d) as [r0|] eqn:Hd; [|done].
        injection Hr as <-. by exists id, d, r0.
      * intros (id & d & r0 & Hin & Hd & ->). exists (id, d).
        split; [exact Hin|]. cbn. by rewrite Hd.
    + generalize (collection "registrations" w). intros c.
      induction c as [|[k d] c IH]; cbn; [done|].
      destruct (DataTo_Registration d); cbn; lia.
  - intros Hf. unfold GetAllRegistrations, Documents_All.
    rewrite !bind_run, call_run. cbn [fst snd]. rewrite Hf. by eexists.
  - unfold GetAllRegistrations, Documents_All.
    rewrite !bind_run, call_run. cbn [fst snd]. by destruct (fails 0 w).
Qed.

Lemma GetAllRegistrations_lists_witness :
  ∃ registrations,
    (GetAllRegistrations (Scenario.with_corrupt_document [])).1
    = (200%nat,
       RegistrationResponse.mk true "Registrations retrieved successfully"
         None registrations)
    ∧ (∀ r, r ∈ registrations ↔
            ∃ id d r0,
              (id, d) ∈ collection "registrations"
                          (Scenario.with_corrupt_document [])
              ∧ DataTo_Registration d = Some r0
              ∧ r = Registration.with_ID id r0)
    ∧ (length registrations
       ≤ length (collection "registrations" (Scenario.with_corrupt_document [])))%nat.
Proof.
  apply (proj1 (GetAllRegistrations_lists (Scenario.with_corrupt_document []))).
  reflexivity.
Defined.

(** X8. A registration that [CreateRegistration] has just created is in
    the list that [GetAllRegistrations] returns next, when the store is
    reached for the listing. *)
Theorem created_is_listed (is_email : string → bool) (keys : Keys)
    (user : User.t) (input : RegistrationInput.t) (w : World) :
  keys !! "user" = Some (CtxUser user) →
  violations is_email input = [] →
  coll_where "userId" (User.UID user) (collection "registrations" w) = None →
  fails 1 w = false →
  coll_get (uniqueID (id_seed w)) (collection "registrations" w) = None →
  fails 2 w = false →
  ∃ r registrations,
    RegistrationResponse.Registration
      (CreateRegistration is_email keys (JSON input) w).1.2 = Some r
    ∧ (GetAllRegistrations (CreateRegistration is_email keys (JSON input) w).2).1
      = (200%nat,
         RegistrationResponse.mk true "Registrations retrieved successfully"
           None registrations)
    ∧ r ∈ registrations.
Proof.
  intros Hk Hv Hnone Hf1 Hfresh Hf2.
  destruct (lookup_registration_None _ _ Hnone) as [e He].
  rewrite (CreateRegistration_inserts _ _ _ _ _ _ Hk Hv He Hf1 Hfresh).
  cbn [fst snd RegistrationResponse.Registration].
  rewrite GetAllRegistrations_run by (unfold stored; by autorewrite with world).
  eexists _, _. split; [reflexivity|]. split; [reflexivity|].
  apply list_elem_of_omap.
  exists (uniqueID (id_seed w),
          Registration_fields (new_registration (User.UID user) input (clock w))).
  split.
  - apply coll_get_elem_of. unfold stored. autorewrite with world.
    apply coll_get_set.
  - cbn [fst snd]. by rewrite DataTo_Registration_fields.
Qed.

Lemma created_is_listed_witness :
  ∃ r registrations,
    RegistrationResponse.Registration
      (CreateRegistration Sample.is_email Sample.keys_u1 (JSON Sample.ada)
         (Sample.fresh [])).1.2 = Some r
    ∧ (GetAllRegistrations
         (CreateRegistration Sample.is_email Sample.keys_u1 (JSON Sample.ada)
            (Sample.fresh [])).2).1
      = (200%nat,
         RegistrationResponse.mk true "Registrations retrieved successfully"
           None registrations)
    ∧ r ∈ registrations.
Proof.
  apply (created_is_listed Sample.is_email Sample.keys_u1 Sample.u1 Sample.ada
           (Sample.fresh []));
    reflexivity.
Defined.

(** ** The middleware, again *)

(** X9. [OptionalAuth] never answers the request itself: it always lets
    it proceed, with the context either unchanged or given an identity.
    It never calls the store: the calls it makes are calls to the
    identity provider, and the store is as it was. *)
Theorem OptionalAuth_always_proceeds (authHeader : string) (keys : Keys)
    (w : World) :
  ∃ keys' calls,
    (OptionalAuth authHeader keys w).1 = Next keys'
    ∧ (keys' = keys ∨ ∃ user token, keys' = set_identity user token keys)
    ∧ trace (OptionalAuth authHeader keys w).2 = (trace w ++ calls)%list
    ∧ forallb is_provider_call calls = true
    ∧ fs (OptionalAuth authHeader keys w).2 = fs w.
Proof.
  unfold OptionalAuth.
  destruct (String.eqb authHeader "").
  { exists keys, []. rewrite app_nil_r. repeat split; by eauto. }
  destruct (negb _ || negb _).
  { exists keys, []. rewrite app_nil_r. repeat split; by eauto. }
  generalize (nth 1 (strings_Split authHeader " ") ""). intros idToken.
  unfold bind, VerifyIDToken, Auth_VerifyIDToken, GetUser, Auth_GetUser,
    call, read, ret.
  cbn.
  destruct (auth_ready w) eqn:Hr; cbn.
  2:{ exists keys, []. rewrite app_nil_r. repeat split; by eauto. }
  destruct (String.eqb idToken ""); cbn.
  { exists keys, []. rewrite app_nil_r. repeat split; by eauto. }
  destruct (faults w) as [|[] fs1]; cbn;
    try (exists keys, [AuthVerifyIDToken idToken]; repeat split; by eauto).
  all: destruct (idp_tokens w !! idToken) as [uid|]; cbn;
    try (exists keys, [AuthVerifyIDToken idToken]; repeat split; by eauto).
  all: rewrite Hr; cbn; destruct (String.eqb uid ""); cbn;
    try (exists keys, [AuthVerifyIDToken idToken]; repeat split; by eauto).
  all: try destruct fs1 as [|[] fs2]; cbn.
  all: try destruct (idp_users w !! uid) as [i|]; cbn.
  all: try (exists keys, [AuthVerifyIDToken idToken; AuthGetUser uid];
            rewrite <- app_assoc; repeat split; by eauto).
  all: eexists _, [AuthVerifyIDToken idToken; AuthGetUser uid];
    rewrite <- app_assoc; split; [reflexivity|];
    split; [right; by eauto|]; by repeat split.
Qed.

Lemma VerifyIDToken_accepts (idToken uid : string) (w : World) :
  auth_ready w = true →
  idToken ≠ "" →
  fails 0 w = false →
  idp_tokens w !! idToken = Some uid →
  VerifyIDToken idToken w
  = (inl (Token.mk uid), after (AuthVerifyIDToken idToken) w).
Proof.
  intros Hr Hne Hf Ht. unfold VerifyIDToken, Auth_VerifyIDToken.
  rewrite bind_run. cbn [read fst snd]. rewrite Hr. cbn [negb].
  apply String.eqb_neq in Hne. rewrite Hne.
  rewrite bind_run, call_run, Hf. cbn [fst snd].
  rewrite bind_run. cbn [read fst snd ret].
  change (idp_tokens (after _ w)) with (idp_tokens w). by rewrite Ht.
Qed.

Lemma GetUser_accepts (uid : string) (i : UserInfo) (w : World) :
  auth_ready w = true →
  uid ≠ "" →
  fails 0 w = false →
  idp_users w !! uid = Some i →
  GetUser uid w = (inl (record_of uid i), after (AuthGetUser uid) w).
Proof.
  intros Hr Hne Hf Hu. unfold GetUser, Auth_GetUser.
  rewrite bind_run. cbn [read fst snd]. rewrite Hr. cbn [negb].
  apply String.eqb_neq in Hne. rewrite Hne.
  rewrite bind_run, call_run, Hf. cbn [fst snd].
  rewrite bind_run. cbn [read fst snd ret].
  change (idp_users (after _ w)) with (idp_users w). by rewrite Hu.
Qed.

(** [RequireAuth] when the provider accepts the credential. *)
Lemma RequireAuth_run (idToken uid : string) (i : UserInfo) (keys : Keys)
    (w : World) :
  provider_accepts idToken uid i w →
  RequireAuth ("Bearer " +:+ idToken) keys w
  = (Next (set_identity
             (match readable_profile uid w with
              | Some firestoreUser =>
                  merge_profile (User_of_record (record_of uid i)) firestoreUser
              | None => User_of_record (record_of uid i)
              end)
             (Token.mk uid) keys),
     after (DocGet "users" uid) (identified idToken uid w)).
Proof.
  intros (Hr & Hsp & Hne & Hune & Hf0 & Hf1 & Ht & Hu).
  unfold RequireAuth. rewrite (strings_Split_bearer _ Hsp).
  change (String.eqb ("Bearer " +:+ idToken) "") with false.
  cbn [length nth Nat.eqb negb orb].
  rewrite String_eqb_refl. cbn [negb].
  rewrite bind_run, (VerifyIDToken_accepts _ _ _ Hr Hne Hf0 Ht). cbn [fst snd].
  rewrite bind_run, (GetUser_accepts _ i) by (autorewrite with world; done).
  cbn [fst snd Token.UID].
  rewrite bind_run, Doc_Get_run. autorewrite with world.
  unfold readable_profile, identified.
  destruct (fails 2 w); [done|].
  destruct (coll_get uid (collection "users" w)) as [d|]; [|done].
  cbn. unfold DataTo. cbn. by destruct (DataTo_User d).
Qed.

(** X10. When the provider accepts the credential and the Profile of the
    subject is read and decodes, the identity that [RequireAuth] puts in
    the context takes its provider tag and its three timestamps from the
    Profile, and its subject, email, display name, photo and verified
    flag from the provider's record, whatever the Profile says of
    them. *)
Theorem RequireAuth_enriches (idToken uid : string) (i : UserInfo)
    (keys : Keys) (w : World) (d : Doc) (firestoreUser : User.t) :
  provider_accepts idToken uid i w →
  fails 2 w = false →
  coll_get uid (collection "users" w) = Some d →
  DataTo_User d = Some firestoreUser →
  ∃ user w',
    RequireAuth ("Bearer " +:+ idToken) keys w
    = (Next (set_identity user (Token.mk uid) keys), w')
    ∧ User.Provider user = User.Provider firestoreUser
    ∧ User.CreatedAt user = User.CreatedAt firestoreUser
    ∧ User.UpdatedAt user = User.UpdatedAt firestoreUser
    ∧ User.LastLoginAt user = User.LastLoginAt firestoreUser
    ∧ User.UID user = uid
    ∧ User.Email user = info_Email i
    ∧ User.DisplayName user = info_DisplayName i
    ∧ User.PhotoURL user = info_PhotoURL i
    ∧ User.EmailVerified user = info_EmailVerified i.
Proof.
  intros Hp Hf2 Hg Hd. rewrite (RequireAuth_run _ _ _ _ _ Hp).
  unfold readable_profile. rewrite Hf2, Hg. cbn. rewrite Hd.
  eexists _, _. by repeat split.
Qed.

Lemma RequireAuth_enriches_witness :
  ∃ user w',
    RequireAuth "Bearer tok1" ∅ (Sample.with_profile [])
    = (Next (set_identity user (Token.mk "u1") ∅), w')
    ∧ User.Provider user = "google.com"
    ∧ User.CreatedAt user = 5
    ∧ User.UpdatedAt user = 6
    ∧ User.LastLoginAt user = 7
    ∧ User.UID user = "u1"
    ∧ User.Email user = "ada@example.com"
    ∧ User.DisplayName user = "Ada Lovelace"
    ∧ User.PhotoURL user = ""
    ∧ User.EmailVerified user = true.
Proof.
  apply (RequireAuth_enriches "tok1" "u1" Sample.ada_info ∅
           (Sample.with_profile []) Sample.profile
           (User.mk "u1" "ada@example.com" "Ada Lovelace" "" "google.com" true
                    5 6 7));
    [by repeat split|reflexivity..].
Defined.

(** X11. On a route behind [RequireAuth], a request that carries a
    credential the provider accepts, from a subject without a
    registration, with an input that passes validation, is answered 201
    when the store accepts the insertion, and the registration created
    belongs to the subject of the credential. *)
Theorem protected_create_owner (is_email : string → bool)
    (idToken uid : string) (i : UserInfo) (input : RegistrationInput.t)
    (w : World) :
  provider_accepts idToken uid i w →
  violations is_email input = [] →
  coll_where "userId" uid (collection "registrations" w) = None →
  fails 4 w = false →
  coll_get (uniqueID (id_seed w)) (collection "registrations" w) = None →
  ∃ r w',
    behind_RequireAuth (λ keys, CreateRegistration is_email keys (JSON input))
      ("Bearer " +:+ idToken) w
    = (Answered
         (201%nat,
          RegistrationResponse.mk true "Registration created successfully"
            (Some r) []), w')
    ∧ Registration.UserID r = uid
    ∧ coll_get (Registration.ID r) (collection "registrations" w')
      = Some (Registration_fields r)
    ∧ registrations_of uid w' = 1%nat.
Proof.
  intros Hp Hv Hnone Hf4 Hfresh. unfold behind_RequireAuth.
  rewrite bind_run, (RequireAuth_run _ _ _ _ _ Hp). cbn [fst snd].
  set (user := match readable_profile uid w with Some _ => _ | None => _ end).
  assert (User.UID user = uid) as Hu.
  { unfold user. by destruct (readable_profile uid w). }
  set (w3 := after _ (identified _ _ w)).
  assert (coll_where "userId" (User.UID user) (collection "registrations" w3)
          = None) as Hnone3.
  { rewrite Hu. unfold w3, identified. by autorewrite with world. }
  destruct (lookup_registration_None _ _ Hnone3) as [e He].
  rewrite bind_run.
  rewrite (CreateRegistration_inserts is_email _ user input w3 e
             (set_identity_user _ _ _) Hv He).
  - cbn [fst snd ret]. eexists _, _. split; [reflexivity|].
    split; [exact Hu|]. unfold stored, registrations_of.
    autorewrite with world. split; [apply coll_get_set|].
    rewrite coll_count_add.
    + rewrite field_is_userId. cbn. rewrite Hu, String_eqb_refl.
      unfold w3, identified. autorewrite with world.
      apply coll_where_None in Hnone. f_equal. exact Hnone.
    + unfold w3, identified. by autorewrite with world.
  - unfold w3, identified. by autorewrite with world.
  - unfold w3, identified. by autorewrite with world.
Qed.

Lemma protected_create_owner_witness :
  ∃ r w',
    behind_RequireAuth
      (λ keys, CreateRegistration Sample.is_email keys (JSON Sample.ada))
      "Bearer tok1" (Sample.with_profile [])
    = (Answered
         (201%nat,
          RegistrationResponse.mk true "Registration created successfully"
            (Some r) []), w')
    ∧ Registration.UserID r = "u1"
    ∧ coll_get (Registration.ID r) (collection "registrations" w')
      = Some (Registration_fields r)
    ∧ registrations_of "u1" w' = 1%nat.
Proof.
  apply (protected_create_owner Sample.is_email "tok1" "u1" Sample.ada_info
           Sample.ada (Sample.with_profile []));
    [by repeat split|reflexivity..].
Defined.

(** ** Verifying a token *)

(** X12. [VerifyToken] answers 401 to a request whose [Authorization]
    header is absent or not of the shape [Bearer <token>], without any
    call to the provider or to the store. *)
Theorem VerifyToken_malformed_header (authHeader : string) (w : World) :
  bearer_shape authHeader = false →
  ∃ message,
    VerifyToken authHeader w
    = ((401%nat, AuthResponse.mk false message None ""), w).
Proof.
  intros Hshape. unfold VerifyToken.
  destruct (String.eqb authHeader "") eqn:He; [by eexists|].
  destruct (negb (Nat.eqb (length (strings_Split authHeader " ")) 2)
            || negb (String.eqb (nth 0 (strings_Split authHeader " ") "") "Bearer"))
    eqn:Hcheck; [by eexists|].
  rewrite (split_check_token _ Hshape Hcheck).
  exists "Invalid or expired token".
  unfold bind, VerifyIDToken, read, ret. cbn.
  by destruct (auth_ready w).
Qed.

Lemma VerifyToken_malformed_header_witness :
  ∃ message,
    VerifyToken "Bearer a b" (Sample.fresh [])
    = ((401%nat, AuthResponse.mk false message None ""), Sample.fresh []).
Proof.
  apply (VerifyToken_malformed_header "Bearer a b" (Sample.fresh [])).
  reflexivity.
Defined.

Lemma getUserFromFirestore_run (uid : string) (w : World) :
  getUserFromFirestore uid w
  = (if fails 0 w then inr ErrUnavailable
     else match coll_get uid (collection "users" w) with
          | None => inr ErrNotFound
          | Some d =>
              match DataTo_User d with
              | Some u => inl u
              | None => inr ErrDataTo
              end
          end,
     after (DocGet "users" uid) w).
Proof.
  unfold getUserFromFirestore. rewrite bind_run, Doc_Get_run. cbn [fst snd].
  destruct (fails 0 w); [done|].
  destruct (coll_get uid (collection "users" w)) as [d|]; [|done].
  unfold DataTo. cbn. by destruct (DataTo_User d).
Qed.

(** [VerifyToken] once the provider has verified the credential. *)
Lemma VerifyToken_run (idToken uid : string) (w : World) :
  auth_ready w = true →
  has_space idToken = false →
  idToken ≠ "" →
  fails 0 w = false →
  idp_tokens w !! idToken = Some uid →
  VerifyToken ("Bearer " +:+ idToken) w
  = match (getUserFromFirestore uid (after (AuthVerifyIDToken idToken) w)).1 with
    | inl user =>
        ((StatusOK, AuthResponse.mk true "Token is valid" (Some user) ""),
         after (DocGet "users" uid) (after (AuthVerifyIDToken idToken) w))
    | inr _ =>
        match GetUser uid
                (after (DocGet "users" uid)
                   (after (AuthVerifyIDToken idToken) w)) with
        | (inl userRecord, w') =>
            ((StatusOK,
              AuthResponse.mk true "Token is valid"
                (Some (fallback_user userRecord)) ""), w')
        | (inr _, w') =>
            ((StatusInternalServerError,
              AuthResponse.mk false "Failed to retrieve user information"
                None ""), w')
        end
    end.
Proof.
  intros Hr Hsp Hne Hf0 Ht. unfold VerifyToken.
  rewrite (strings_Split_bearer _ Hsp).
  change (String.eqb ("Bearer " +:+ idToken) "") with false.
  cbn [length nth Nat.eqb negb orb].
  rewrite String_eqb_refl. cbn [negb].
  rewrite bind_run, (VerifyIDToken_accepts _ _ _ Hr Hne Hf0 Ht). cbn [fst snd].
  rewrite bind_run. cbn [Token.UID].
  rewrite getUserFromFirestore_run. cbn [fst snd].
  destruct (if fails 0 _ then _ else _) as [user|e]; [done|].
  rewrite bind_run.
  by destruct (GetUser uid _) as [[userRecord|e'] w'].
Qed.

(** X13. When the provider verifies the credential, [VerifyToken]
    answers with the stored Profile of the subject as it is, whenever the
    Profile is read and decodes, and does not ask the provider for the
    user record; when the Profile cannot be used and the provider
    returns the record, it answers with the subject, email, name and
    photo of that record, the other fields being zero; when neither is
    available it answers 500. *)
Theorem VerifyToken_prefers_profile (idToken uid : string) (w : World) :
  auth_ready w = true →
  has_space idToken = false →
  idToken ≠ "" →
  uid ≠ "" →
  fails 0 w = false →
  idp_tokens w !! idToken = Some uid →
  (∀ d user,
     fails 1 w = false →
     coll_get uid (collection "users" w) = Some d →
     DataTo_User d = Some user →
     (VerifyToken ("Bearer " +:+ idToken) w).1
     = (200%nat, AuthResponse.mk true "Token is valid" (Some user) "")
     ∧ trace (VerifyToken ("Bearer " +:+ idToken) w).2
       = (trace w ++ [AuthVerifyIDToken idToken; DocGet "users" uid])%list)
  ∧ (profile_unreadable uid (after (AuthVerifyIDToken idToken) w) = true →
     (∀ i, fails 2 w = false → idp_users w !! uid = Some i →
        (VerifyToken ("Bearer " +:+ idToken) w).1
        = (200%nat,
           AuthResponse.mk true "Token is valid"
             (Some (User.mk uid (info_Email i) (info_DisplayName i)
                            (info_PhotoURL i) "" false 0 0 0)) ""))
     ∧ (fails 2 w = true ∨ idp_users w !! uid = None →
        (VerifyToken ("Bearer " +:+ idToken) w).1
        = (500%nat,
           AuthResponse.mk false "Failed to retrieve user information"
             None ""))).
Proof.
  intros Hr Hsp Hne Hune Hf0 Ht.
  rewrite (VerifyToken_run _ _ _ Hr Hsp Hne Hf0 Ht).
  rewrite getUserFromFirestore_run. cbn [fst]. autorewrite with world.
  unfold profile_unreadable. autorewrite with world. split.
  - intros d user Hf1 Hg Hd. rewrite Hf1, Hg, Hd. cbn [fst snd].
    autorewrite with world. by rewrite <- app_assoc.
  - intros Hun.
    assert (∃ e, (if fails 1 w then inr ErrUnavailable
                  else match coll_get uid (collection "users" w) with
                       | Some d => match DataTo_User d with
                                   | Some u => inl u
                                   | None => inr ErrDataTo
                                   end
                       | None => inr ErrNotFound
                       end) = (inr e : User.t + Error)) as [e ->].
    { destruct (fails 1 w); [by eexists|]. cbn in Hun.
      destruct (coll_get uid (collection "users" w)) as [d|]; [|by eexists].
      destruct (DataTo_User d); [done|by eexists]. }
    split.
    + intros i Hf2 Hu. rewrite (GetUser_accepts _ i); try done.
      by autorewrite with world.
    + intros Hfail. unfold GetUser, Auth_GetUser.
      rewrite bind_run. cbn [read fst snd].
      change (auth_ready (after _ (after _ w))) with (auth_ready w).
      rewrite Hr. cbn [negb]. apply String.eqb_neq in Hune. rewrite Hune.
      rewrite bind_run, call_run. cbn [fst snd]. autorewrite with world.
      destruct (fails 2 w); [done|]. destruct Hfail as [|Hu]; [done|].
      rewrite bind_run. cbn [read fst snd ret].
      change (idp_users (after _ (after _ (after _ w)))) with (idp_users w).
      by rewrite Hu.
Qed.

Lemma VerifyToken_prefers_profile_witness :
  (VerifyToken "Bearer tok1" (Sample.with_profile [])).1
  = (200%nat,
     AuthResponse.mk true "Token is valid"
       (Some (User.mk "u1" "ada@example.com" "Ada Lovelace" "" "google.com"
                      true 5 6 7)) "")
  ∧ trace (VerifyToken "Bearer tok1" (Sample.with_profile [])).2
    = (trace (Sample.with_profile [])
         ++ [AuthVerifyIDToken "tok1"; DocGet "users" "u1"])%list.
Proof.
  apply (proj1 (VerifyToken_prefers_profile "tok1" "u1"
                  (Sample.with_profile [])
                  eq_refl eq_refl ltac:(discriminate) ltac:(discriminate)
                  eq_refl eq_refl)
           Sample.profile
           (User.mk "u1" "ada@example.com" "Ada Lovelace" "" "google.com" true
                    5 6 7));
    reflexivity.
Defined.

(** ** Logging in *)

Lemma DataTo_User_fields (u : User.t) : DataTo_User (User_fields u) = Some u.
Proof. by destruct u. Qed.

Lemma saveUserToFirestore_run (user : User.t) (w : World) :
  saveUserToFirestore user w
  = ((saved_user user w, if fails 1 w then Some ErrUnavailable else None),
     saved_world user w).
Proof.
  unfold saveUserToFirestore, saved_world, saved_user, profile_is_new, bind.
  rewrite Doc_Get_run.
  destruct (fails 0 w) eqn:Hf0; cbv beta iota zeta.
  - cbn [orb Exists snap_data negb]. rewrite time_Now_run.
    unfold ret at 1. cbv beta iota. rewrite time_Now_run. cbv beta iota.
    rewrite Doc_Set_run. autorewrite with world.
    by destruct (fails 1 w).
  - destruct (coll_get (User.UID user) (collection "users" w)) as [d|] eqn:Eg.
    + cbn [orb Exists snap_data negb]. unfold DataTo. cbn [snap_data mbind option_bind].
      destruct (DataTo_User d) as [existing|] eqn:Ed;
        unfold ret at 1; cbv beta iota; rewrite time_Now_run; cbv beta iota;
        rewrite Doc_Set_run; autorewrite with world;
        by destruct (fails 1 w).
    + cbn [orb Exists snap_data negb]. rewrite time_Now_run.
      unfold ret at 1. cbv beta iota. rewrite time_Now_run. cbv beta iota.
      rewrite Doc_Set_run. autorewrite with world.
      by destruct (fails 1 w).
Qed.

(** [GoogleLogin] when the provider accepts the credential. *)
Lemma GoogleLogin_run (idToken uid : string) (i : UserInfo) (w : World) :
  provider_accepts idToken uid i w →
  GoogleLogin (LoginJSON idToken) w
  = ((StatusOK,
      AuthResponse.mk true
        (if fails 3 w then "Logged in successfully (profile save pending)"
         else "Logged in successfully")
        (Some (saved_user (login_user (record_of uid i) (clock w))
                 (tick (identified idToken uid w))))
        idToken),
     saved_world (login_user (record_of uid i) (clock w))
       (tick (identified idToken uid w))).
Proof.
  intros (Hr & Hsp & Hne & Hune & Hf0 & Hf1 & Ht & Hu).
  unfold GoogleLogin, ShouldBindLogin.
  pose proof Hne as Hne'. apply String.eqb_neq in Hne'. rewrite Hne'.
  rewrite bind_run, (VerifyIDToken_accepts _ _ _ Hr Hne Hf0 Ht). cbn [fst snd].
  rewrite bind_run, (GetUser_accepts _ i) by (autorewrite with world; done).
  cbn [fst snd Token.UID].
  rewrite bind_run, time_Now_run. cbn [fst snd].
  rewrite bind_run, saveUserToFirestore_run. cbn [fst snd].
  autorewrite with world.
  by destruct (fails 3 w).
Qed.

Lemma saved_user_fields (user : User.t) (w : World) :
  User.UID (saved_user user w) = User.UID user
  ∧ User.Email (saved_user user w) = User.Email user
  ∧ User.DisplayName (saved_user user w) = User.DisplayName user
  ∧ User.PhotoURL (saved_user user w) = User.PhotoURL user
  ∧ User.Provider (saved_user user w) = User.Provider user
  ∧ User.EmailVerified (saved_user user w) = User.EmailVerified user
  ∧ User.LastLoginAt (saved_user user w) = User.LastLoginAt user.
Proof.
  unfold saved_user. destruct (profile_is_new _ _); [done|].
  by destruct (_ ≫= _).
Qed.

Lemma saved_world_projections (user : User.t) (w : World) :
  auth_ready (saved_world user w) = auth_ready w
  ∧ idp_tokens (saved_world user w) = idp_tokens w
  ∧ idp_users (saved_world user w) = idp_users w
  ∧ (∀ n, fails n (saved_world user w) = fails (S (S n)) w)
  ∧ collection "registrations" (saved_world user w)
    = collection "registrations" w
  ∧ (fails 1 w = true →
     collection "users" (saved_world user w) = collection "users" w)
  ∧ (fails 1 w = false →
     collection "users" (saved_world user w)
     = coll_set (User.UID user) (User_fields (saved_user user w))
         (collection "users" w)).
Proof.
  unfold saved_world.
  destruct (fails 1 w), (profile_is_new (User.UID user) w);
    repeat split; try done; try (intros n; by autorewrite with world);
    try (rewrite collection_set_collection_ne by done; done);
    intros _; by autorewrite with world.
Qed.

(** X14. Once the provider has verified the credential and returned the
    user record, [GoogleLogin] answers 200 with the credential and a
    user, whether the Profile can be read or not and whether it can be
    written or not; a failed write only changes the message. The user
    has the subject, email, name and photo of the provider's record, the
    provider tag [google.com], the time of the login as [lastLoginAt],
    and [emailVerified] false whatever the provider says; when the write
    succeeds this user is what the Profile document holds. *)
Theorem GoogleLogin_succeeds (idToken uid : string) (i : UserInfo)
    (w : World) :
  provider_accepts idToken uid i w →
  ∃ message user w',
    GoogleLogin (LoginJSON idToken) w
    = ((200%nat, AuthResponse.mk true message (Some user) idToken), w')
    ∧ User.UID user = uid
    ∧ User.Email user = info_Email i
    ∧ User.DisplayName user = info_DisplayName i
    ∧ User.PhotoURL user = info_PhotoURL i
    ∧ User.Provider user = "google.com"
    ∧ User.EmailVerified user = false
    ∧ User.LastLoginAt user = clock w
    ∧ (fails 3 w = true →
       message = "Logged in successfully (profile save pending)"
       ∧ collection "users" w' = collection "users" w)
    ∧ (fails 3 w = false →
       message = "Logged in successfully"
       ∧ coll_get uid (collection "users" w') = Some (User_fields user)).
Proof.
  intros Hp. rewrite (GoogleLogin_run _ _ _ _ Hp).
  eexists _, _, _. split; [reflexivity|].
  destruct (saved_user_fields (login_user (record_of uid i) (clock w))
              (tick (identified idToken uid w)))
    as (H1 & H2 & H3 & H4 & H5 & H6 & H7).
  do 7 (split; [done|]).
  destruct (saved_world_projections (login_user (record_of uid i) (clock w))
              (tick (identified idToken uid w)))
    as (_ & _ & _ & _ & _ & Hfail & Hok).
  assert (fails 1 (tick (identified idToken uid w)) = fails 3 w) as Hf13.
  { unfold identified. by autorewrite with world. }
  assert (collection "users" (tick (identified idToken uid w))
          = collection "users" w) as Hc.
  { unfold identified. by autorewrite with world. }
  rewrite Hf13 in Hfail, Hok. rewrite Hc in Hfail, Hok.
  split.
  - intros Hf. rewrite Hf. split; [done|]. by rewrite (Hfail Hf).
  - intros Hf. rewrite Hf. split; [done|]. rewrite (Hok Hf).
    apply coll_get_set.
Qed.

(** The store cannot be reached at all: the login still succeeds. *)
Lemma GoogleLogin_succeeds_witness :
  ∃ message user w',
    GoogleLogin (LoginJSON "tok1") (Sample.fresh [false; false; true; true])
    = ((200%nat, AuthResponse.mk true message (Some user) "tok1"), w')
    ∧ User.UID user = "u1"
    ∧ User.Email user = "ada@example.com"
    ∧ User.DisplayName user = "Ada Lovelace"
    ∧ User.PhotoURL user = ""
    ∧ User.Provider user = "google.com"
    ∧ User.EmailVerified user = false
    ∧ User.LastLoginAt user = 1000
    ∧ (fails 3 (Sample.fresh [false; false; true; true]) = true →
       message = "Logged in successfully (profile save pending)"
       ∧ collection "users" w'
         = collection "users" (Sample.fresh [false; false; true; true]))
    ∧ (fails 3 (Sample.fresh [false; false; true; true]) = false →
       message = "Logged in successfully"
       ∧ coll_get "u1" (collection "users" w') = Some (User_fields user)).
Proof.
  apply (GoogleLogin_succeeds "tok1" "u1" Sample.ada_info
           (Sample.fresh [false; false; true; true])).
  by repeat split.
Defined.

(** X15. [GoogleLogin] answers 400 to a body without a token, before any
    call; 401 when the credential is not verified; and 500, not 401 as
    the middleware does, when the credential is verified but the user
    record cannot be fetched, the store being then as it was. *)
Theorem GoogleLogin_refuses (body : LoginBody) (w : World) :
  (ShouldBindLogin body = None →
   GoogleLogin body w
   = ((400%nat,
       AuthResponse.mk false "Invalid request: idToken is required" None ""),
      w))
  ∧ (∀ idToken e w1,
       ShouldBindLogin body = Some idToken →
       VerifyIDToken idToken w = (inr e, w1) →
       GoogleLogin body w
       = ((401%nat, AuthResponse.mk false "Invalid or expired token" None ""),
          w1))
  ∧ (∀ idToken token e w1 w2,
       ShouldBindLogin body = Some idToken →
       VerifyIDToken idToken w = (inl token, w1) →
       GetUser (Token.UID token) w1 = (inr e, w2) →
       GoogleLogin body w
       = ((500%nat,
           AuthResponse.mk false "Failed to retrieve user information" None ""),
          w2)
       ∧ fs w2 = fs w).
Proof.
  unfold GoogleLogin. split; [|split].
  - by intros ->.
  - intros idToken e w1 -> Hv. by rewrite bind_run, Hv.
  - intros idToken token e w1 w2 -> Hv Hg.
    rewrite bind_run, Hv. cbn [fst snd]. rewrite bind_run, Hg.
    split; [done|].
    transitivity (fs w1).
    + revert Hg. unfold GetUser, Auth_GetUser, bind, read, call, ret. cbn.
      destruct (auth_ready w1); cbn; [|by intros [= _ <-]].
      destruct (String.eqb (Token.UID token) ""); [by intros [= _ <-]|].
      destruct (faults w1) as [|[] ?]; cbn; try (by intros [= _ <-]);
        destruct (idp_users w1 !! Token.UID token); by intros [= _ <-].
    + revert Hv. unfold VerifyIDToken, Auth_VerifyIDToken, bind, read, call, ret.
      cbn. destruct (auth_ready w); cbn; [|by intros [= _ <-]].
      destruct (String.eqb idToken ""); [by intros [= _ <-]|].
      destruct (faults w) as [|[] ?]; cbn; try (by intros [= _ <-]);
        destruct (idp_tokens w !! idToken); by intros [= _ <-].
Qed.

Lemma GoogleLogin_refuses_witness :
  GoogleLogin (LoginJSON "") (Sample.fresh [])
  = ((400%nat,
      AuthResponse.mk false "Invalid request: idToken is required" None ""),
     Sample.fresh []).
Proof.
  apply (proj1 (GoogleLogin_refuses (LoginJSON "") (Sample.fresh []))).
  reflexivity.
Defined.

(** X16. After a login whose Profile write succeeds, [VerifyToken] with
    the same credential, when the provider and the store are reached,
    answers with exactly the user that the login answered with: every
    field of the user survives the write and the read of the
    Profile. *)
Theorem login_then_verify (idToken uid : string) (i : UserInfo) (w : World) :
  provider_accepts idToken uid i w →
  fails 3 w = false →
  fails 4 w = false →
  fails 5 w = false →
  ∃ user,
    (GoogleLogin (LoginJSON idToken) w).1
    = (200%nat,
       AuthResponse.mk true "Logged in successfully" (Some user) idToken)
    ∧ (VerifyToken ("Bearer " +:+ idToken)
         (GoogleLogin (LoginJSON idToken) w).2).1
      = (200%nat, AuthResponse.mk true "Token is valid" (Some user) "").
Proof.
  intros Hp Hf3 Hf4 Hf5. rewrite (GoogleLogin_run _ _ _ _ Hp). rewrite Hf3.
  cbn [fst snd]. eexists. split; [reflexivity|].
  destruct Hp as (Hr & Hsp & Hne & Hune & Hf0 & Hf1 & Ht & Hu).
  set (user := login_user (record_of uid i) (clock w)).
  destruct (saved_world_projections user (tick (identified idToken uid w)))
    as (Hr' & Ht' & _ & Hf' & _ & _ & Hok).
  assert (∀ n, fails n (tick (identified idToken uid w)) = fails (S (S n)) w)
    as Hfn.
  { intros n. unfold identified. by autorewrite with world. }
  rewrite Hfn in Hok. specialize (Hok Hf3).
  rewrite (VerifyToken_run idToken uid).
  - rewrite getUserFromFirestore_run. cbn [fst]. autorewrite with world.
    rewrite (Hf' 1%nat), Hfn, Hf5, Hok.
    change (User.UID user) with uid.
    by rewrite coll_get_set, DataTo_User_fields.
  - by rewrite Hr'.
  - exact Hsp.
  - exact Hne.
  - by rewrite (Hf' 0%nat), Hfn.
  - by rewrite Ht'.
Qed.

Lemma login_then_verify_witness :
  ∃ user,
    (GoogleLogin (LoginJSON "tok1") (Sample.fresh [])).1
    = (200%nat,
       AuthResponse.mk true "Logged in successfully" (Some user) "tok1")
    ∧ (VerifyToken "Bearer tok1"
         (GoogleLogin (LoginJSON "tok1") (Sample.fresh [])).2).1
      = (200%nat, AuthResponse.mk true "Token is valid" (Some user) "").
Proof.
  apply (login_then_verify "tok1" "u1" Sample.ada_info (Sample.fresh []));
    [by repeat split|reflexivity..].
Defined.

Lemma fails_no_faults (n : nat) (w : World) : faults w = [] → fails n w = false.
Proof. intros H. unfold fails. rewrite H. by destruct n. Qed.

Lemma faults_saved_world (user : User.t) (w : World) :
  faults w = [] → faults (saved_world user w) = [].
Proof.
  intros H. unfold saved_world, fails. rewrite H. cbn.
  destruct (profile_is_new _ _); cbn; by rewrite H.
Qed.

(** X17. The creation date of a Profile is set by the first login and
    kept by the next: when a subject without a Profile logs in twice and
    no call fails, both logins answer 200, the second user has the
    [createdAt] of the first, and a later [updatedAt] and
    [lastLoginAt]. *)
Theorem second_login_keeps_createdAt (idToken uid : string) (i : UserInfo)
    (w : World) :
  provider_accepts idToken uid i w →
  faults w = [] →
  coll_get uid (collection "users" w) = None →
  ∃ first second,
    (GoogleLogin (LoginJSON idToken) w).1
    = (200%nat,
       AuthResponse.mk true "Logged in successfully" (Some first) idToken)
    ∧ (GoogleLogin (LoginJSON idToken) (GoogleLogin (LoginJSON idToken) w).2).1
      = (200%nat,
         AuthResponse.mk true "Logged in successfully" (Some second) idToken)
    ∧ User.CreatedAt second = User.CreatedAt first
    ∧ clock w ≤ User.CreatedAt first
    ∧ User.UpdatedAt first < User.UpdatedAt second
    ∧ User.LastLoginAt first < User.LastLoginAt second.
Proof.
  intros Hp Hnf Hnone.
  rewrite (GoogleLogin_run _ _ _ _ Hp), (fails_no_faults 3 _ Hnf).
  cbn [fst snd].
  set (u1 := login_user (record_of uid i) (clock w)).
  set (w0 := tick (identified idToken uid w)).
  assert (faults w0 = []) as Hnf0.
  { unfold w0, identified. cbn. by rewrite Hnf. }
  assert (collection "users" w0 = collection "users" w) as Hc0 by done.
  assert (clock w0 = clock w + 1) as Hck0 by done.
  destruct (saved_world_projections u1 w0)
    as (Hr1 & Ht1 & Hu1 & _ & _ & _ & Hok1).
  specialize (Hok1 (fails_no_faults 1 _ Hnf0)). rewrite Hc0 in Hok1.
  assert (profile_is_new uid w0 = true) as Hnew.
  { unfold profile_is_new. by rewrite Hc0, Hnone, orb_true_r. }
  assert (saved_user u1 w0
          = set_UpdatedAt (clock w + 2) (set_CreatedAt (clock w + 1) u1)) as Hs1.
  { unfold saved_user. change (User.UID u1) with uid. rewrite Hnew, Hck0.
    by replace (clock w + 1 + 1) with (clock w + 2) by lia. }
  assert (clock (saved_world u1 w0) = clock w + 3) as Hck1.
  { unfold saved_world. change (User.UID u1) with uid. rewrite Hnew.
    destruct (fails 1 w0); cbn; lia. }
  destruct Hp as (Hr & Hsp & Hne & Hune & Hf0 & Hf1 & Ht & Hu).
  pose proof (faults_saved_world u1 w0 Hnf0) as Hnf1.
  assert (provider_accepts idToken uid i (saved_world u1 w0)) as Hp1.
  { repeat split; try done.
    - by rewrite Hr1.
    - by apply fails_no_faults.
    - by apply fails_no_faults.
    - by rewrite Ht1.
    - by rewrite Hu1. }
  rewrite (GoogleLogin_run _ _ _ _ Hp1), (fails_no_faults 3 _ Hnf1).
  cbn [fst].
  set (u2 := login_user (record_of uid i) (clock (saved_world u1 w0))).
  set (w2 := tick (identified idToken uid (saved_world u1 w0))).
  assert (collection "users" w2 = collection "users" (saved_world u1 w0))
    as Hc2 by done.
  assert (fails 0 w2 = false) as Hf02.
  { unfold w2, identified. autorewrite with world.
    by apply fails_no_faults. }
  assert (clock w2 = clock w + 4) as Hck2.
  { unfold w2, identified. autorewrite with world. lia. }
  assert (saved_user u2 w2
          = set_UpdatedAt (clock w + 4) (set_CreatedAt (clock w + 1) u2)) as Hs2.
  { unfold saved_user, profile_is_new. change (User.UID u2) with uid.
    rewrite Hf02, Hc2, Hok1. change (User.UID u1) with uid.
    rewrite coll_get_set. cbn [orb mbind option_bind].
    by rewrite DataTo_User_fields, Hck2, Hs1. }
  exists (saved_user u1 w0), (saved_user u2 w2).
  split; [reflexivity|]. split; [reflexivity|].
  rewrite Hs1, Hs2. unfold u2. rewrite Hck1. unfold u1. cbn. lia.
Qed.

Lemma second_login_keeps_createdAt_witness :
  ∃ first second,
    (GoogleLogin (LoginJSON "tok1") (Sample.fresh [])).1
    = (200%nat,
       AuthResponse.mk true "Logged in successfully" (Some first) "tok1")
    ∧ (GoogleLogin (LoginJSON "tok1")
         (GoogleLogin (LoginJSON "tok1") (Sample.fresh [])).2).1
      = (200%nat,
         AuthResponse.mk true "Logged in successfully" (Some second) "tok1")
    ∧ User.CreatedAt second = User.CreatedAt first
    ∧ 1000 ≤ User.CreatedAt first
    ∧ User.UpdatedAt first < User.UpdatedAt second
    ∧ User.LastLoginAt first < User.LastLoginAt second.
Proof.
  apply (second_login_keeps_createdAt "tok1" "u1" Sample.ada_info
           (Sample.fresh []));
    [by repeat split|reflexivity..].
Defined.

(** ** Validation, again *)

(** X18. [ShouldBindJSON] accepts a decoded input, and returns it as it
    is, exactly when its first name, last name, country and ticket type
    are not empty and its email is not empty and well formed; the
    optional fields play no part. *)
Theorem ShouldBindJSON_accepts (is_email : string → bool)
    (input : RegistrationInput.t) :
  ShouldBindJSON is_email (JSON input) = inl input
  ↔ RegistrationInput.FirstName input ≠ ""
    ∧ RegistrationInput.LastName input ≠ ""
    ∧ RegistrationInput.Email input ≠ ""
    ∧ is_email (RegistrationInput.Email input) = true
    ∧ RegistrationInput.Country input ≠ ""
    ∧ RegistrationInput.TicketType input ≠ "".
Proof.
  split.
  - intros H. apply violations_nil. unfold ShouldBindJSON in H.
    by destruct (violations is_email input).
  - intros (H1 & H2 & H3 & H4 & H5 & H6). apply ShouldBindJSON_valid.
    unfold violations.
    apply String.eqb_neq in H1, H2, H3, H5, H6.
    by rewrite H1, H2, H3, H4, H5, H6.
Qed.

(** ** Cross-origin requests *)





(** ** Configuration *)

(** X20. The environment decides the mode through [ENVIRONMENT] alone:
    the configuration loaded is in development mode when the variable is
    unset or is [development], in production mode when it is
    [production], never in both, and in neither for any other value,
    the empty string included, since a variable that is set to the empty
    string is not replaced by its default. *)
Theorem Load_environment (env : Env) :
  (IsDevelopment (Load env) = true
   ↔ env !! "ENVIRONMENT" = None ∨ env !! "ENVIRONMENT" = Some "development")
  ∧ (IsProduction (Load env) = true ↔ env !! "ENVIRONMENT" = Some "production")
  ∧ ¬ (IsDevelopment (Load env) = true ∧ IsProduction (Load env) = true)
  ∧ (env !! "ENVIRONMENT" = Some "" →
     Config.Environment (Load env) = ""
     ∧ IsDevelopment (Load env) = false ∧ IsProduction (Load env) = false).
Proof.
  unfold IsDevelopment, IsProduction, Load, getEnv. cbn.
  destruct (env !! "ENVIRONMENT") as [v|]; cbn.
  - split; [|split; [|split]].
    + rewrite String.eqb_eq. split; [intros ->; by right|].
      by intros [[=]|[= ->]].
    + rewrite String.eqb_eq. split; [by intros ->|by intros [= ->]].
    + rewrite !String.eqb_eq. intros [-> [=]].
    + by intros [= ->].
  - split; [|split; [|split]]; try done.
    + split; [intros _; by left|done].
    + by intros [_ [=]].
Qed.

Lemma Load_environment_witness :
  Config.Environment (Load {["ENVIRONMENT" := ""]}) = ""
  ∧ IsDevelopment (Load {["ENVIRONMENT" := ""]}) = false
  ∧ IsProduction (Load {["ENVIRONMENT" := ""]}) = false.
Proof.
  apply (proj2 (proj2 (proj2 (Load_environment {["ENVIRONMENT" := ""]})))).
  reflexivity.
Defined.

(** X21. The cross-origin configuration that [Setup] builds allows
    credentials exactly outside development mode, and then allows the
    frontend URL as its only origin; in development mode it allows every
    origin, without credentials. So credentials go with the wildcard
    only if the frontend URL itself is [*]; and in production mode,
    where [Setup] also puts the router in release mode, the origin is
    restricted to the frontend URL. *)
Theorem Setup_cors (cfg : Config.t) :
  CORSConfig.AllowCredentials (Setup_corsConfig cfg) = negb (IsDevelopment cfg)
  ∧ CORSConfig.AllowOrigins (Setup_corsConfig cfg)
    = (if IsDevelopment cfg then ["*"] else [Config.FrontendURL cfg])
  ∧ (CORSConfig.AllowCredentials (Setup_corsConfig cfg) = true →
     "*" ∈ CORSConfig.AllowOrigins (Setup_corsConfig cfg) →
     Config.FrontendURL cfg = "*")
  ∧ (Setup_releaseMode cfg = true →
     CORSConfig.AllowOrigins (Setup_corsConfig cfg) = [Config.FrontendURL cfg]
     ∧ CORSConfig.AllowCredentials (Setup_corsConfig cfg) = true).
Proof.
  unfold Setup_corsConfig, Setup_releaseMode, IsDevelopment, IsProduction.
  destruct (String.eqb_spec (Config.Environment cfg) "development") as [He|He];
    cbn.
  - rewrite He. repeat split; try done.
  - repeat split; try done. intros _ H. apply list_elem_of_singleton in H.
    by symmetry.
Qed.

Lemma Setup_cors_witness :
  CORSConfig.AllowOrigins
    (Setup_corsConfig
       (Load {["ENVIRONMENT" := "production";
               "FRONTEND_URL" := "https://conf.example"]}))
  = ["https://conf.example"]
  ∧ CORSConfig.AllowCredentials
      (Setup_corsConfig
         (Load {["ENVIRONMENT" := "production";
                 "FRONTEND_URL" := "https://conf.example"]}))
    = true.
Proof.
  exact (proj2 (proj2 (proj2
           (Setup_cors
              (Load {["ENVIRONMENT" := "production";
                      "FRONTEND_URL" := "https://conf.example"]}))))
         eq_refl).
Defined.

(** ** Closing the client *)

(** X22. [Close] closes the store at most once: whatever the first call
    did, a second call does not call [Firestore.Close], leaves the
    client as it is and returns the error that the first call returned,
    even if closing would now give another result. A nil client is
    closed without error. *)
Theorem Close_once (c : option Client.t) (first second : option Error) :
  (Close (Close c first).1.2 second).1.1 = (Close c first).1.1
  ∧ (Close (Close c first).1.2 second).1.2 = (Close c first).1.2
  ∧ (Close (Close c first).1.2 second).2 = false
  ∧ Close None first = (None, None, false).
Proof.
  destruct c as [[fsx [] err]|]; cbn; [done| |done].
  by destruct fsx.
Qed.
